(** * Advanced asset-index filters: a shallow embedding of [helpers.ts]

    Source: [app/components/assets/assets-index/advanced-filters/helpers.ts].

    The four exported functions are embedded as Rocq functions:
    - [getUIFieldType]               (helpers.ts, lines 40-105)
    - [useInitialFilters]            (helpers.ts, lines 109-127)
    - [getDefaultValueForFieldType]  (helpers.ts, lines 130-166)
    - [getAvailableColumns]          (helpers.ts, lines 175-214)

    Three small pieces of other files are embedded beside them: the guard
    of the scan-assets loader (src/unnamed/part_001), the loader of the
    route that books a kit (kits.$kitId.create-new-booking.tsx) and the
    feature list of a price (src/unnamed/part_000).

    JavaScript strings are modelled by [string].  Every delimiter the code
    splits on (colon, comma, the letter T) and every literal it compares
    against is ASCII, so splitting and comparing bytes agrees with splitting
    and comparing UTF-16 code units. *)

From Stdlib Require Import String Ascii List Bool NArith ZArith Lia.
Import ListNotations.
Local Open Scope string_scope.

(* ================================================================= *)
(** ** The JavaScript runtime pieces the helpers rely on *)

Module Js.

(** What a [throw] carries.  The only exception the helpers can raise is
    the [TypeError] of a method call on [undefined]. *)
Inductive error : Type :=
| TypeError.

(** A computation that either completes with a value or throws. *)
Inductive result (A : Type) : Type :=
| Ok (a : A)
| Throw (e : error).
Arguments Ok {A} a.
Arguments Throw {A} e.

Definition bind {A B : Type} (m : result A) (k : A -> result B) : result B :=
  match m with
  | Ok a => k a
  | Throw e => Throw e
  end.

(** [String.prototype.split(sep)] for a one-character separator.  The
    resulting array always has at least one element, so it is returned as
    its first element together with the remaining ones. *)
Fixpoint split (sep : ascii) (s : string) : string * list string :=
  match s with
  | EmptyString => (EmptyString, [])
  | String c s' =>
      let (h, t) := split sep s' in
      if Ascii.eqb c sep then (EmptyString, h :: t) else (String c h, t)
  end.

(** The array that [split] returns. *)
Definition elements (p : string * list string) : list string :=
  fst p :: snd p.

(** [s.startsWith(p)]. *)
Definition startsWith (s p : string) : bool := String.prefix p s.

(** [arr.includes(x)] on an array of strings. *)
Definition includes (arr : list string) (x : string) : bool :=
  existsb (String.eqb x) arr.

(** [v || ""] where [v] is a string or [undefined]: the empty string is
    falsy, every other string is truthy. *)
Definition orEmpty (v : option string) : string :=
  match v with
  | Some s => if String.eqb s "" then "" else s
  | None => ""
  end.

(** [arr.forEach(cb)] where the callback updates a local accumulator and
    may throw: a throw leaves the loop at once. *)
Fixpoint forEach {A S : Type} (cb : S -> A -> result S) (arr : list A)
    (st : S) : result S :=
  match arr with
  | [] => Ok st
  | x :: rest => bind (cb st x) (forEach cb rest)
  end.

(** *** The clock: [new Date()] and [toISOString] *)

(** The UTC fields of a [Date]. *)
Record Date : Type := mkDate {
  utcFullYear : N;
  utcMonth : N;       (* 1 .. 12 *)
  utcDay : N;         (* 1 .. 31 *)
  utcHours : N;
  utcMinutes : N;
  utcSeconds : N;
  utcMilliseconds : N
}.

Definition digit (n : N) : ascii := ascii_of_N (48 + n mod 10).

(** [n] in decimal, on exactly [w] digits, padded with zeros. *)
Fixpoint padded (w : nat) (n : N) : string :=
  match w with
  | O => EmptyString
  | S w' => padded w' (n / 10) ++ String (digit n) EmptyString
  end.

(** The year as [toISOString] prints it: four digits up to 9999, the
    expanded form with a sign and six digits beyond. *)
Definition isoYear (y : N) : string :=
  if (y <=? 9999)%N then padded 4 y else "+" ++ padded 6 y.

(** The calendar date, [YYYY-MM-DD]. *)
Definition isoDate (d : Date) : string :=
  isoYear (utcFullYear d) ++ "-" ++ padded 2 (utcMonth d)
    ++ "-" ++ padded 2 (utcDay d).

(** The time of day, [HH:mm:ss.sssZ]. *)
Definition isoTime (d : Date) : string :=
  padded 2 (utcHours d) ++ ":" ++ padded 2 (utcMinutes d) ++ ":"
    ++ padded 2 (utcSeconds d) ++ "." ++ padded 3 (utcMilliseconds d) ++ "Z".

Definition toISOString (d : Date) : string :=
  isoDate d ++ "T" ++ isoTime d.

End Js.

Import Js.

(* ================================================================= *)
(** ** Data model *)

(** Modelled from the spec: the type [Column] is imported from
    [~/modules/asset-index-settings/helpers], which is not among the sources.
    A column descriptor has a [name], a [visible] flag and, for custom-field
    columns only, a primitive kind, which the helpers read as [cfType].  The
    kind is kept as a string so that kinds the helpers do not know are
    inputs too. *)
Module Column.
Record t : Type := mk {
  name : string;
  visible : bool;
  cfType : option string
}.
End Column.

(** The closed set of [UIFieldType] (helpers.ts, lines 11-18). *)
Inductive UIFieldType : Type :=
| UIString
| UIText
| UIBoolean
| UIDate
| UINumber
| UIEnum
| UIArray.

(** A [UIFieldType] is a string literal type: this is the string. *)
Definition uiFieldTypeString (t : UIFieldType) : string :=
  match t with
  | UIString => "string"
  | UIText => "text"
  | UIBoolean => "boolean"
  | UIDate => "date"
  | UINumber => "number"
  | UIEnum => "enum"
  | UIArray => "array"
  end.

(** [uiFieldTypeNames] (helpers.ts, lines 22-30). *)
Definition uiFieldTypeNames (t : UIFieldType) : string :=
  match t with
  | UIString => "Single-line text"
  | UIText => "Multi-line text"
  | UIBoolean => "Yes/No"
  | UIDate => "Date"
  | UINumber => "Number"
  | UIEnum => "Option"
  | UIArray => "List"
  end.

(** The [value] of a filter as the parser builds it: [filterValue] itself (a
    string, or [undefined] when the raw value has no colon), or the array a
    range value is split into. *)
Inductive FilterValue : Type :=
| VUndefined
| VScalar (s : string)
| VArray (l : list string).

(** Modelled from the spec: the type [Filter] is imported from [./schema],
    which is not among the sources.  A filter descriptor has a [name], an
    [operator], a [value] and a [type]; these are the four fields the parser
    writes (helpers.ts, lines 118-123).  [operator] and [type] are unchecked
    casts of plain strings there. *)
Module Filter.
Record t : Type := mk {
  name : string;
  operator : string;
  value : FilterValue;
  type : string
}.
End Filter.

Inductive SortDirection : Type :=
| Asc
| Desc.

(** Modelled from the spec: the type [Sort] is imported from
    [../advanced-asset-index-filters-and-sorting], which is not among the
    sources.  A sort descriptor has a [name] and a [direction]. *)
Module Sort.
Record t : Type := mk {
  name : string;
  direction : SortDirection
}.
End Sort.

(** An element of [Array<Filter | Sort>]. *)
Inductive FilterOrSort : Type :=
| IsFilter (f : Filter.t)
| IsSort (s : Sort.t).

(** [f.name] on a [Filter | Sort]. *)
Definition usedName (u : FilterOrSort) : string :=
  match u with
  | IsFilter f => Filter.name f
  | IsSort s => Sort.name s
  end.

(** Modelled from the spec: the type [CustomField] comes from the Prisma
    client, which is not among the sources.  A custom field definition has a
    [name], a primitive kind, an optional ordered list of option strings and
    a [required] flag. *)
Module CustomField.
Record t : Type := mk {
  name : string;
  type : string;
  options : option (list string);
  required : bool
}.
End CustomField.

(** What [getDefaultValueForFieldType] returns (declared [any]): [true], a
    string or the number [0]. *)
Inductive DefaultValue : Type :=
| DBoolean (b : bool)
| DString (s : string)
| DNumber (n : Z).

Inductive Operation : Type :=
| OpFilter
| OpSort.

(* ================================================================= *)
(** ** getUIFieldType (helpers.ts, lines 40-105) *)

(** The inner [switch (column.cfType)], lines 80-98. *)
Definition customFieldUIType (cfType : option string) : UIFieldType :=
  match cfType with
  | Some k =>
      if String.eqb k "TEXT" then UIString
      else if String.eqb k "MULTILINE_TEXT" then UIText
      else if String.eqb k "BOOLEAN" then UIBoolean
      else if String.eqb k "DATE" then UIDate
      else if String.eqb k "OPTION" then UIEnum
      else UIString
  | None => UIString
  end.

(** The [switch (column.name)], lines 50-102, which assigns [fieldType]. *)
Definition fieldTypeOf (column : Column.t) : UIFieldType :=
  let n := Column.name column in
  if String.eqb n "id" || String.eqb n "name" then UIString
  else if String.eqb n "custody" || String.eqb n "status"
          || String.eqb n "category" || String.eqb n "location"
          || String.eqb n "kit" then UIEnum
  else if String.eqb n "description" then UIText
  else if String.eqb n "valuation" then UINumber
  else if String.eqb n "availableToBook" then UIBoolean
  else if String.eqb n "createdAt" then UIDate
  else if String.eqb n "tags" then UIArray
  else if startsWith n "cf_" then customFieldUIType (Column.cfType column)
  else UIString.

Definition getUIFieldType (column : Column.t) (friendlyName : bool) : string :=
  let fieldType := fieldTypeOf column in
  if friendlyName then uiFieldTypeNames fieldType
  else uiFieldTypeString fieldType.

(* ================================================================= *)
(** ** useInitialFilters (helpers.ts, lines 109-127) *)

(** [columns.find((c) => c.name === key)], line 114. *)
Definition findColumn (columns : list Column.t) (key : string)
    : option Column.t :=
  find (fun c => String.eqb (Column.name c) key) columns.

(** The body of the [forEach] callback, lines 114-124: [initialFilters] is
    the array being pushed to, [(key, value)] the entry of the search
    parameters. *)
Definition pushInitialFilter (columns : list Column.t)
    (initialFilters : list Filter.t) (entry : string * string)
    : result (list Filter.t) :=
  let (key, value) := entry in
  match findColumn columns key with
  | Some column =>
      (* const [operator, filterValue] = value.split(":") *)
      let parts := split ":" value in
      let operator := fst parts in
      let filterValue := nth_error (snd parts) 0 in
      bind
        (if String.eqb operator "between" then
           match filterValue with
           | Some fv => Ok (VArray (elements (split "," fv)))
           | None => Throw TypeError   (* undefined.split(",") *)
           end
         else
           Ok (match filterValue with
               | Some fv => VScalar fv
               | None => VUndefined
               end))
        (fun v =>
           (* initialFilters.push({ name, operator, value, type }) *)
           let type := getUIFieldType column false in
           Ok (initialFilters ++ [Filter.mk key operator v type])%list)
  | None => Ok initialFilters
  end.

(** [searchParams] is the [URLSearchParams] of the request: its entries in
    order, duplicate keys included. *)
Definition useInitialFilters (columns : list Column.t)
    (searchParams : list (string * string)) : result (list Filter.t) :=
  forEach (pushInitialFilter columns) searchParams [].

(* ================================================================= *)
(** ** getDefaultValueForFieldType (helpers.ts, lines 130-166) *)

(** [new Date().toISOString().split("T")[0]], with [now] the value of the
    clock. *)
Definition today (now : Date) : string :=
  fst (split "T" (toISOString now)).

(** [customFields?.find((cf) => `cf_${cf.name}` === column.name)]. *)
Definition findCustomField (column : Column.t)
    (customFields : option (list CustomField.t)) : option CustomField.t :=
  match customFields with
  | Some cfs =>
      find (fun cf => String.eqb ("cf_" ++ CustomField.name cf)
                                 (Column.name column)) cfs
  | None => None
  end.

(** [customField?.options?.[0]]. *)
Definition firstOption (customField : option CustomField.t) : option string :=
  match customField with
  | Some cf =>
      match CustomField.options cf with
      | Some opts => nth_error opts 0
      | None => None
      end
  | None => None
  end.

Definition getDefaultValueForFieldType (now : Date) (column : Column.t)
    (customFields : option (list CustomField.t)) : DefaultValue :=
  if startsWith (Column.name column) "cf_" then
    let customField := findCustomField column customFields in
    match Column.cfType column with
    | Some k =>
        if String.eqb k "DATE" then DString (today now)
        else if String.eqb k "BOOLEAN" then DBoolean true
        else if String.eqb k "OPTION" then
          DString (orEmpty (firstOption customField))
        else if String.eqb k "TEXT" || String.eqb k "MULTILINE_TEXT" then
          DString ""
        else DString ""
    | None => DString ""
    end
  else
    let t := getUIFieldType column false in
    if String.eqb t "boolean" then DBoolean true
    else if String.eqb t "date" then DString (today now)
    else if String.eqb t "number" then DNumber 0
    else DString "".

(* ================================================================= *)
(** ** getAvailableColumns (helpers.ts, lines 175-214) *)

(** [usedColumns.find((f) => f.name === column.name)]. *)
Definition findUsed (usedColumns : list FilterOrSort) (column : Column.t)
    : option FilterOrSort :=
  find (fun f => String.eqb (usedName f) (Column.name column)) usedColumns.

(** The first [filter] callback, lines 182-183.  [find] yields an object or
    [undefined], and an object is truthy. *)
Definition visibleAndUnused (usedColumns : list FilterOrSort)
    (column : Column.t) : bool :=
  Column.visible column
  && negb (match findUsed usedColumns column with
           | Some _ => true
           | None => false
           end).

(** The second [filter] callback, lines 187-213. *)
Definition allowedFor (operation : Operation) (column : Column.t) : bool :=
  if negb (Column.visible column) then false
  else
    match operation with
    | OpSort =>
        let unsortableColumns := ["tags"] in
        if includes unsortableColumns (Column.name column) then false
        else if startsWith (Column.name column) "cf_" then
          let unsortableTypes := ["MULTILINE_TEXT"] in
          negb (includes unsortableTypes
                  (match Column.cfType column with
                   | Some k => if String.eqb k "" then "" else k
                   | None => ""
                   end))
        else true
    | OpFilter =>
        let unfilterableColumns : list string := [] in
        if includes unfilterableColumns (Column.name column) then false
        else true
    end.

Definition getAvailableColumns (columns : list Column.t)
    (usedColumns : list FilterOrSort) (operation : Operation)
    : list Column.t :=
  let availableColumns := filter (visibleAndUnused usedColumns) columns in
  filter (allowedFor operation) availableColumns.

(* ================================================================= *)
(** ** The guards of two route loaders, and the features of a price *)

(** The argument of [new ShelfError({...})] as the loaders below build it;
    the class itself lives in [~/utils/error], which is not among the
    sources.  The [catch] block of each loader turns the error into the
    response it throws. *)
Record ShelfError : Type := mkShelfError {
  errorTitle : option string;
  errorMessage : string;
  errorLabel : string;
  shouldBeCaptured : option bool
}.

(** *** The loader of the scan-assets route (src/unnamed/part_001, lines
        24-80) *)

Module ScanAssets.

(** The fields of a booking that the loader reads. *)
Record Booking : Type := mkBooking {
  status : string;
  from : option Date;
  to : option Date;
  name : string
}.

Section Loader.

(** The members of the Prisma enums the loader compares against:
    [OrganizationRoles.SELF_SERVICE], [BookingStatus.DRAFT],
    [BookingStatus.COMPLETE] and [BookingStatus.ARCHIVED]. *)
Variables SELF_SERVICE DRAFT COMPLETE ARCHIVED : string.

(** [!!v] on a [Date | null]: an object is truthy, [null] is not. *)
Definition present (v : option Date) : bool :=
  match v with
  | Some _ => true
  | None => false
  end.

(** Lines 40-59. *)
Definition canManageAssets (role : string) (booking : Booking) : bool :=
  let isSelfService := String.eqb role SELF_SERVICE in
  let canManageAssetsAsSelfService :=
    isSelfService && negb (String.eqb (status booking) DRAFT) in
  let isCompleted := String.eqb (status booking) COMPLETE in
  let isArchived := String.eqb (status booking) ARCHIVED in
  present (from booking)
  && present (to booking)
  && negb isCompleted
  && negb isArchived
  && negb canManageAssetsAsSelfService.

Definition notAllowed : ShelfError :=
  mkShelfError None
    "You are not allowed to manage assets for this booking at the moment."
    "Booking" (Some false).

(** The [try] block from line 40 on, given the [role] that
    [requirePermission] resolved and the [booking] that [getBooking]
    resolved: the error thrown, or the header title and the booking
    returned. *)
Definition loader (role : string) (booking : Booking)
    : ShelfError + (string * Booking) :=
  if negb (canManageAssets role booking) then inl notAllowed
  else inr ("Scan assets for booking | " ++ name booking, booking).

End Loader.

End ScanAssets.

(** *** The loader of the route that books a kit
        (src/app/routes/_layout+/kits.$kitId.create-new-booking.tsx, lines
        22-95) *)

Module KitBooking.

(** The field of an asset of the kit that the loader reads. *)
Record Asset : Type := mkAsset {
  assetId : string;
  assetTitle : string
}.

(** The fields of a team member that the loader reads. *)
Record TeamMember : Type := mkTeamMember {
  memberId : string;
  userId : option string
}.

(** What the loader returns: the object passed to [data], with the team
    members that the spread of [teamMembersData] brings. *)
Record LoaderData : Type := mkLoaderData {
  showModal : bool;
  isSelfServiceOrBase : bool;
  selfServiceOrBaseUser : option TeamMember;
  teamMembers : list TeamMember;
  assetIds : list string
}.

Definition personalWorkspace : ShelfError :=
  mkShelfError (Some "Not allowed")
    "You can't create bookings for personal workspaces. Please create a Team workspace to create bookings."
    "Booking" (Some false).

Definition brokenUser : ShelfError :=
  mkShelfError None
    "Seems like something is wrong with your user. Please contact support to get this resolved. Make sure to include the trace id seen below."
    "Booking" None.

(** [teamMembers.find((member) => member.userId === authSession.userId)]. *)
Definition findMember (members : list TeamMember) (sessionUserId : string)
    : option TeamMember :=
  find (fun member =>
          match userId member with
          | Some u => String.eqb u sessionUserId
          | None => false
          end) members.

(** The [try] block, lines 31-90, given what the awaited calls resolved:
    [personalOrg] is [isPersonalOrg(currentOrganization)], [selfService]
    is [isSelfServiceOrBase], [kitAssets] is [kit.assets] and [members]
    the team members of [teamMembersData]. *)
Definition loader (sessionUserId : string) (personalOrg selfService : bool)
    (kitAssets : list Asset) (members : list TeamMember)
    : ShelfError + LoaderData :=
  if personalOrg then inl personalWorkspace
  else
    let user :=
      if selfService then findMember members sessionUserId else None in
    if selfService
       && negb (match user with Some _ => true | None => false end)
    then inl brokenUser
    else inr (mkLoaderData true selfService user members
                (map assetId kitAssets)).

End KitBooking.

(** *** The features of a price (src/unnamed/part_000, line 49) *)

(** [price.product.metadata.features?.split(",") || []]: an array is
    truthy, so the empty array stands in for [undefined] only. *)
Definition priceFeatures (features : option string) : list string :=
  match features with
  | Some s => elements (split "," s)
  | None => []
  end.

(* ================================================================= *)
(** ** Vocabulary of the statements *)

(** The kinds the inner switch has a case for. *)
Definition knownKinds : list string :=
  ["TEXT"; "MULTILINE_TEXT"; "BOOLEAN"; "DATE"; "OPTION"].

(** The outer switch, read as a table. *)
Definition builtInTable : list (string * string) :=
  [("id", "string"); ("name", "string");
   ("custody", "enum"); ("status", "enum"); ("category", "enum");
   ("location", "enum"); ("kit", "enum");
   ("description", "text"); ("valuation", "number");
   ("availableToBook", "boolean"); ("createdAt", "date");
   ("tags", "array")].

(** Whether the character [c] occurs in [s]. *)
Fixpoint occurs (c : ascii) (s : string) : bool :=
  match s with
  | EmptyString => false
  | String a s' => Ascii.eqb a c || occurs c s'
  end.

(** The catalog entry for [column], with its [type] replaced. *)
Definition retyped (f : string -> string) (cf : CustomField.t)
    : CustomField.t :=
  CustomField.mk (CustomField.name cf) (f (CustomField.type cf))
    (CustomField.options cf) (CustomField.required cf).

(** Whether [key] is the name of a column of the catalog. *)
Definition matched (columns : list Column.t) (entry : string * string)
    : bool :=
  match findColumn columns (fst entry) with
  | Some _ => true
  | None => false
  end.

(** What the callback pushes for the entry [entry] when it pushes [f]. *)
Definition parsedFrom (columns : list Column.t) (entry : string * string)
    (f : Filter.t) : Prop :=
  let parts := split ":" (snd entry) in
  let filterValue := nth_error (snd parts) 0 in
  Filter.name f = fst entry
  /\ Filter.operator f = fst parts
  /\ (exists column,
        findColumn columns (fst entry) = Some column
        /\ Filter.type f = getUIFieldType column false)
  /\ (fst parts <> "between" ->
        Filter.value f = match filterValue with
                         | Some fv => VScalar fv
                         | None => VUndefined
                         end)
  /\ (fst parts = "between" ->
        exists fv, filterValue = Some fv
                   /\ Filter.value f = VArray (elements (split "," fv))).

(** *** Sample data *)

Definition sampleCatalog : list Column.t :=
  [Column.mk "name" true None;
   Column.mk "tags" true None;
   Column.mk "status" true None;
   Column.mk "cf_Notes" true (Some "MULTILINE_TEXT");
   Column.mk "valuation" false None;
   Column.mk "cf_Serial" true (Some "TEXT")].

Definition sampleUsed : list FilterOrSort :=
  [IsFilter (Filter.mk "status" "is" (VScalar "AVAILABLE") "enum")].

Definition serialColumn : Column.t :=
  Column.mk "cf_Serial" true (Some "TEXT").

Definition sampleParams : list (string * string) :=
  [("status", "is:AVAILABLE"); ("name", "contains:drill")].

Definition statusColumns : list Column.t :=
  [Column.mk "name" true None; Column.mk "status" true None].

Definition sampleClock : Date := mkDate 2026 11 3 23 59 7 42.

Definition sizeColumn : Column.t := Column.mk "cf_Size" true (Some "OPTION").

Definition sampleCustomFields : list CustomField.t :=
  [CustomField.mk "Colour" "OPTION" None false;
   CustomField.mk "Size" "OPTION" (Some ["A"; "B"]) false;
   CustomField.mk "Size" "OPTION" (Some ["Z"]) true].

(** *** Further vocabulary *)

(** The seven strings of [UIFieldType]. *)
Definition uiFieldTypes : list string :=
  ["string"; "text"; "boolean"; "date"; "number"; "enum"; "array"].

(** [xs] is [ys] with some elements left out and the others in their
    places. *)
Inductive Subsequence {A : Type} : list A -> list A -> Prop :=
| Subsequence_nil : Subsequence [] []
| Subsequence_skip (y : A) (xs ys : list A) :
    Subsequence xs ys -> Subsequence xs (y :: ys)
| Subsequence_keep (x : A) (xs ys : list A) :
    Subsequence xs ys -> Subsequence (x :: xs) (x :: ys).

(** [arr.join(sep)] for a one-character separator. *)
Definition join (sep : ascii) (arr : list string) : string :=
  String.concat (String sep EmptyString) arr.

(** The same catalog up to the [visible] flags. *)
Definition sameUpToVisible (c1 c2 : Column.t) : Prop :=
  Column.name c1 = Column.name c2 /\ Column.cfType c1 = Column.cfType c2.

Definition hiddenCatalog : list Column.t :=
  [Column.mk "name" false None; Column.mk "status" false None].

Definition draftBooking : ScanAssets.Booking :=
  ScanAssets.mkBooking "DRAFT" (Some sampleClock) (Some sampleClock)
    "Fair stand".

Definition sampleMembers : list KitBooking.TeamMember :=
  [KitBooking.mkTeamMember "tm1" None;
   KitBooking.mkTeamMember "tm2" (Some "u2");
   KitBooking.mkTeamMember "tm3" (Some "u3")].

Definition sampleAssets : list KitBooking.Asset :=
  [KitBooking.mkAsset "a2" "Tripod"; KitBooking.mkAsset "a1" "Camera"].

(* ================================================================= *)
(** ** Facts about the runtime pieces *)

Section StringFacts.

Lemma startsWith_inv (p : string) :
  forall s, startsWith s p = true -> exists r, s = p ++ r.
Proof.
  unfold startsWith.
  induction p as [|a p IH]; intros s H.
  - exists s. reflexivity.
  - destruct s as [|b s]; simpl in H; [discriminate H|].
    destruct (ascii_dec a b) as [<-|]; [|discriminate H].
    destruct (IH s H) as [r ->]. exists r. reflexivity.
Qed.

Lemma startsWith_cf_inv (n : string) :
  startsWith n "cf_" = true -> exists r, n = "cf_" ++ r.
Proof. apply startsWith_inv. Qed.

Lemma startsWith_cf_intro (r : string) : startsWith ("cf_" ++ r) "cf_" = true.
Proof. destruct r; reflexivity. Qed.

Lemma includes_In (arr : list string) (x : string) :
  includes arr x = true <-> In x arr.
Proof.
  unfold includes. rewrite existsb_exists. split.
  - intros [y [Hy Heq]]. apply String.eqb_eq in Heq. now subst.
  - intros H. exists x. split; [assumption | apply String.eqb_refl].
Qed.

End StringFacts.

(* ================================================================= *)
(** ** The field type resolver *)

Section FieldTypeResolver.

(** On a custom-field column only the inner switch decides. *)
Lemma fieldTypeOf_custom (column : Column.t) :
  startsWith (Column.name column) "cf_" = true ->
  fieldTypeOf column = customFieldUIType (Column.cfType column).
Proof.
  intros H. unfold fieldTypeOf.
  destruct (startsWith_cf_inv _ H) as [r Hr].
  rewrite Hr. rewrite startsWith_cf_intro. reflexivity.
Qed.

(** The resolver answers "array" for the column named "tags" and for no
    other column. *)
Lemma getUIFieldType_array_iff (column : Column.t) :
  getUIFieldType column false = "array" <-> Column.name column = "tags".
Proof.
  unfold getUIFieldType, fieldTypeOf. split.
  - intros H.
    destruct (String.eqb_spec (Column.name column) "tags") as [E|E];
      [assumption|].
    repeat match type of H with
           | context [if ?b then _ else _] => destruct b
           end; try discriminate H.
    unfold customFieldUIType in H.
    destruct (Column.cfType column) as [k|]; [|discriminate H].
    repeat match type of H with
           | context [if ?b then _ else _] => destruct b
           end; discriminate H.
  - intros ->. reflexivity.
Qed.

Lemma customFieldUIType_unknown (k : string) :
  ~ In k knownKinds -> customFieldUIType (Some k) = UIString.
Proof.
  intros H. unfold customFieldUIType.
  repeat match goal with
         | |- context [String.eqb k ?l] =>
             destruct (String.eqb_spec k l) as [->|_];
             [exfalso; apply H; unfold knownKinds; simpl; tauto|]
         end.
  reflexivity.
Qed.

(** C9.  The resolver is a total function.  On a custom-field column (name
    prefixed [cf_]) it answers by the kind: TEXT gives "string",
    MULTILINE_TEXT gives "text", BOOLEAN gives "boolean", DATE gives "date",
    OPTION gives "enum", and every other kind, or no kind at all, gives
    "string".  On a built-in column it answers by the name, following
    [builtInTable]: among others valuation gives "number", tags gives
    "array" and createdAt gives "date". *)
Theorem getUIFieldType_documented (column : Column.t) :
  (startsWith (Column.name column) "cf_" = true ->
     (Column.cfType column = Some "TEXT" ->
        getUIFieldType column false = "string")
     /\ (Column.cfType column = Some "MULTILINE_TEXT" ->
        getUIFieldType column false = "text")
     /\ (Column.cfType column = Some "BOOLEAN" ->
        getUIFieldType column false = "boolean")
     /\ (Column.cfType column = Some "DATE" ->
        getUIFieldType column false = "date")
     /\ (Column.cfType column = Some "OPTION" ->
        getUIFieldType column false = "enum")
     /\ (forall k, Column.cfType column = Some k -> ~ In k knownKinds ->
        getUIFieldType column false = "string")
     /\ (Column.cfType column = None ->
        getUIFieldType column false = "string"))
  /\ (forall n t, In (n, t) builtInTable -> Column.name column = n ->
        getUIFieldType column false = t).
Proof.
  split.
  - intros Hcf. unfold getUIFieldType.
    rewrite (fieldTypeOf_custom _ Hcf).
    repeat split; try (intros ->; reflexivity).
    intros k -> Hk. now rewrite customFieldUIType_unknown.
  - intros n t Hin Hn. unfold getUIFieldType, fieldTypeOf. rewrite Hn.
    unfold builtInTable in Hin. simpl in Hin.
    repeat (destruct Hin as [Hin|Hin];
            [injection Hin as <- <-; reflexivity|]).
    contradiction.
Qed.

Lemma getUIFieldType_documented_witness :
  getUIFieldType (Column.mk "cf_Notes" true (Some "MULTILINE_TEXT")) false
    = "text"
  /\ getUIFieldType (Column.mk "cf_Weight" true (Some "NUMBER")) false
    = "string"
  /\ getUIFieldType (Column.mk "valuation" true None) false = "number".
Proof.
  refine (conj _ (conj _ _)).
  - exact (proj1 (proj2 (proj1 (getUIFieldType_documented
                    (Column.mk "cf_Notes" true (Some "MULTILINE_TEXT")))
                    eq_refl)) eq_refl).
  - refine (proj1 (proj2 (proj2 (proj2 (proj2 (proj2
              (proj1 (getUIFieldType_documented
                        (Column.mk "cf_Weight" true (Some "NUMBER")))
                 eq_refl)))))) "NUMBER" eq_refl _).
    unfold knownKinds. simpl. intros H.
    repeat (destruct H as [H|H]; [discriminate H|]). exact H.
  - refine (proj2 (getUIFieldType_documented
                     (Column.mk "valuation" true None))
              "valuation" "number" _ eq_refl).
    unfold builtInTable. simpl. tauto.
Defined.

End FieldTypeResolver.

(* ================================================================= *)
(** ** The column availability resolver *)

Section Availability.

Variable columns : list Column.t.
Variable usedColumns : list FilterOrSort.

Lemma findUsed_none (column : Column.t) :
  findUsed usedColumns column = None <->
  ~ In (Column.name column) (map usedName usedColumns).
Proof.
  unfold findUsed. split.
  - intros Hnone Hin. apply in_map_iff in Hin as [u [Hu Hin]].
    apply (find_none _ _ Hnone) in Hin. rewrite Hu in Hin.
    rewrite String.eqb_refl in Hin. discriminate Hin.
  - intros Hnot.
    destruct (find _ usedColumns) as [u|] eqn:E; [|reflexivity].
    apply find_some in E as [Hin Heq]. apply String.eqb_eq in Heq.
    exfalso. apply Hnot. rewrite <- Heq. now apply in_map.
Qed.

Lemma getAvailableColumns_In (operation : Operation) (column : Column.t) :
  In column (getAvailableColumns columns usedColumns operation) <->
  In column columns
  /\ visibleAndUnused usedColumns column = true
  /\ allowedFor operation column = true.
Proof.
  unfold getAvailableColumns. rewrite !filter_In. tauto.
Qed.

(** C6.  Whatever the catalog, the used columns and the operation, a column
    that [getAvailableColumns] returns is visible and its name is not the
    name of a used column. *)
Theorem getAvailableColumns_visible_unused
    (operation : Operation) (column : Column.t) :
  In column (getAvailableColumns columns usedColumns operation) ->
  Column.visible column = true
  /\ ~ In (Column.name column) (map usedName usedColumns).
Proof.
  intros H. apply getAvailableColumns_In in H as [_ [H _]].
  unfold visibleAndUnused in H. apply andb_true_iff in H as [Hv Hu].
  split; [assumption|].
  apply findUsed_none.
  destruct (findUsed usedColumns column); [discriminate Hu | reflexivity].
Qed.

(** C7.  Whatever the catalog and the used columns, for the operation
    [sort] no returned column resolves to the UI type "array" (so none is
    the [tags] column), and none is a custom-field column of kind
    MULTILINE_TEXT. *)
Theorem getAvailableColumns_sort_excludes (column : Column.t) :
  In column (getAvailableColumns columns usedColumns OpSort) ->
  getUIFieldType column false <> "array"
  /\ Column.name column <> "tags"
  /\ ~ (startsWith (Column.name column) "cf_" = true
        /\ Column.cfType column = Some "MULTILINE_TEXT").
Proof.
  intros H. apply getAvailableColumns_In in H as [_ [_ H]].
  unfold allowedFor in H.
  destruct (negb (Column.visible column)); [discriminate H|].
  destruct (includes ["tags"] (Column.name column)) eqn:Htags;
    [discriminate H|].
  assert (Hname : Column.name column <> "tags").
  { intros E. rewrite E in Htags. discriminate Htags. }
  split; [|split].
  - rewrite getUIFieldType_array_iff. exact Hname.
  - exact Hname.
  - intros [Hcf Hkind]. rewrite Hcf, Hkind in H. discriminate H.
Qed.

End Availability.

Lemma getAvailableColumns_visible_unused_witness :
  In (Column.mk "tags" true None)
     (getAvailableColumns sampleCatalog sampleUsed OpFilter)
  /\ Column.visible (Column.mk "tags" true None) = true
  /\ ~ In "tags" (map usedName sampleUsed).
Proof.
  assert (H : In (Column.mk "tags" true None)
                (getAvailableColumns sampleCatalog sampleUsed OpFilter)).
  { vm_compute. tauto. }
  split; [exact H|].
  exact (getAvailableColumns_visible_unused sampleCatalog sampleUsed OpFilter
           (Column.mk "tags" true None) H).
Defined.

Lemma getAvailableColumns_sort_excludes_witness :
  In serialColumn (getAvailableColumns sampleCatalog [] OpSort)
  /\ getUIFieldType serialColumn false <> "array"
  /\ Column.name serialColumn <> "tags"
  /\ ~ (startsWith (Column.name serialColumn) "cf_" = true
        /\ Column.cfType serialColumn = Some "MULTILINE_TEXT").
Proof.
  assert (H : In serialColumn (getAvailableColumns sampleCatalog [] OpSort)).
  { vm_compute. tauto. }
  split; [exact H|].
  exact (getAvailableColumns_sort_excludes sampleCatalog [] serialColumn H).
Defined.

(** What the resolver returns on the sample catalog, for both operations. *)
Example getAvailableColumns_sample_sort :
  map Column.name (getAvailableColumns sampleCatalog
                     [IsSort (Sort.mk "name" Asc)] OpSort)
  = ["status"; "cf_Serial"].
Proof. reflexivity. Qed.

Example getAvailableColumns_sample_filter :
  map Column.name (getAvailableColumns sampleCatalog
                     [IsSort (Sort.mk "name" Asc)] OpFilter)
  = ["tags"; "status"; "cf_Notes"; "cf_Serial"].
Proof. reflexivity. Qed.

(* ================================================================= *)
(** ** Splitting, and the date the clock prints *)

Section Splitting.

Lemma occurs_app (c : ascii) (a b : string) :
  occurs c (a ++ b) = occurs c a || occurs c b.
Proof.
  induction a as [|x a IH]; simpl; [reflexivity|].
  rewrite IH. apply orb_assoc.
Qed.

(** A string without the separator is the only element. *)
Lemma split_absent (sep : ascii) (s : string) :
  occurs sep s = false -> split sep s = (s, []).
Proof.
  induction s as [|a s IH]; simpl; [reflexivity|].
  intros H. apply orb_false_iff in H as [Ha Hs].
  rewrite (IH Hs), Ha. reflexivity.
Qed.

(** The first element ends at the first separator; the others are the
    elements of what follows it. *)
Lemma split_first (sep : ascii) (a b : string) :
  occurs sep a = false ->
  split sep (a ++ String sep b) = (a, elements (split sep b)).
Proof.
  induction a as [|x a IH]; simpl.
  - intros _. rewrite Ascii.eqb_refl.
    destruct (split sep b). reflexivity.
  - intros H. apply orb_false_iff in H as [Hx Ha].
    rewrite (IH Ha), Hx. reflexivity.
Qed.

Lemma digit_not_T (n : N) : Ascii.eqb (digit n) "T" = false.
Proof.
  unfold digit.
  assert (H : (n mod 10 < 10)%N) by (apply N.mod_lt; discriminate).
  generalize dependent (n mod 10)%N. intros m H.
  assert (E : (m = 0 \/ m = 1 \/ m = 2 \/ m = 3 \/ m = 4 \/ m = 5
               \/ m = 6 \/ m = 7 \/ m = 8 \/ m = 9)%N) by lia.
  repeat (destruct E as [E|E]; [rewrite E; reflexivity|]).
  rewrite E. reflexivity.
Qed.

Lemma padded_no_T (w : nat) : forall n, occurs "T" (padded w n) = false.
Proof.
  induction w as [|w IH]; intros n; simpl; [reflexivity|].
  rewrite occurs_app, IH. simpl. rewrite digit_not_T. reflexivity.
Qed.

Lemma isoDate_no_T (d : Date) : occurs "T" (isoDate d) = false.
Proof.
  unfold isoDate, isoYear.
  destruct (utcFullYear d <=? 9999)%N;
    repeat (rewrite occurs_app || rewrite padded_no_T || simpl);
    reflexivity.
Qed.

(** [new Date().toISOString().split("T")[0]] is the UTC calendar date of
    the clock, printed [YYYY-MM-DD]. *)
Lemma today_isoDate (now : Date) : today now = isoDate now.
Proof.
  unfold today, toISOString.
  change (isoDate now ++ "T" ++ isoTime now)
    with (isoDate now ++ String "T" (isoTime now)).
  rewrite split_first by apply isoDate_no_T. reflexivity.
Qed.

End Splitting.

(** [split] on the arrays JavaScript returns for the same calls. *)
Example split_samples :
  elements (split ":" "") = [""]
  /\ elements (split ":" "between") = ["between"]
  /\ elements (split ":" "is:AVAILABLE") = ["is"; "AVAILABLE"]
  /\ elements (split ":" "is:") = ["is"; ""]
  /\ elements (split ":" ":x") = [""; "x"]
  /\ elements (split ":" "contains:Rack 4:B") = ["contains"; "Rack 4"; "B"]
  /\ elements (split "," "10,50") = ["10"; "50"].
Proof. repeat split. Qed.

Example today_sample :
  today (mkDate 2026 11 3 23 59 7 42) = "2026-11-03".
Proof. reflexivity. Qed.

Example toISOString_sample :
  toISOString (mkDate 2026 11 3 23 59 7 42) = "2026-11-03T23:59:07.042Z".
Proof. reflexivity. Qed.

(* ================================================================= *)
(** ** The default value generator *)

Section Defaults.

Variable now : Date.

Ltac case_kind k :=
  repeat match goal with
         | |- context [String.eqb k ?l] =>
             destruct (String.eqb_spec k l); subst; simpl
         | H : context [String.eqb k ?l] |- _ =>
             destruct (String.eqb_spec k l); subst; simpl in H
         end.

Lemma orEmpty_Some (s : string) : orEmpty (Some s) = s.
Proof.
  unfold orEmpty. destruct (String.eqb_spec s ""); congruence.
Qed.

(** A [null] catalog and an empty one find the same thing: nothing. *)
Lemma findCustomField_null (column : Column.t) :
  findCustomField column None = findCustomField column (Some []).
Proof. reflexivity. Qed.

(** On a custom-field column every kind but OPTION fixes the default
    without the catalog. *)
Lemma getDefaultValueForFieldType_custom (column : Column.t)
    (customFields : option (list CustomField.t)) :
  startsWith (Column.name column) "cf_" = true ->
  getDefaultValueForFieldType now column customFields =
  match Column.cfType column with
  | Some k =>
      if String.eqb k "DATE" then DString (today now)
      else if String.eqb k "BOOLEAN" then DBoolean true
      else if String.eqb k "OPTION" then
        DString (orEmpty (firstOption (findCustomField column customFields)))
      else DString ""
  | None => DString ""
  end.
Proof.
  intros H. unfold getDefaultValueForFieldType. rewrite H.
  destruct (Column.cfType column) as [k|]; [|reflexivity].
  case_kind k; reflexivity.
Qed.

Lemma getDefaultValueForFieldType_option (column : Column.t)
    (customFields : option (list CustomField.t)) :
  startsWith (Column.name column) "cf_" = true ->
  Column.cfType column = Some "OPTION" ->
  getDefaultValueForFieldType now column customFields
  = DString (orEmpty (firstOption (findCustomField column customFields))).
Proof.
  intros Hcf Hkind.
  rewrite (getDefaultValueForFieldType_custom _ _ Hcf), Hkind. reflexivity.
Qed.

(** The default by resolved UI type, cases [boolean], [date] and [number]. *)
Lemma getDefaultValueForFieldType_by_type (column : Column.t)
    (customFields : option (list CustomField.t)) :
  (getUIFieldType column false = "boolean" ->
     getDefaultValueForFieldType now column customFields = DBoolean true)
  /\ (getUIFieldType column false = "date" ->
     getDefaultValueForFieldType now column customFields
       = DString (today now))
  /\ (getUIFieldType column false = "number" ->
     getDefaultValueForFieldType now column customFields = DNumber 0).
Proof.
  destruct (startsWith (Column.name column) "cf_") eqn:Hcf.
  - rewrite (getDefaultValueForFieldType_custom _ _ Hcf).
    unfold getUIFieldType. rewrite (fieldTypeOf_custom _ Hcf).
    unfold customFieldUIType.
    destruct (Column.cfType column) as [k|];
      [|repeat split; intros H; discriminate H].
    repeat split; intros H; case_kind k;
      try discriminate H; try reflexivity.
  - unfold getDefaultValueForFieldType. rewrite Hcf.
    repeat split; intros ->; reflexivity.
Qed.

(** C8.  [getDefaultValueForFieldType] returns [true] for a boolean-typed
    column, the calendar date of the clock (the UTC date, printed
    YYYY-MM-DD) for a date-typed column, and zero for a number-typed
    column.  For a custom-field column of kind OPTION it returns the first
    option of the catalog entry found for the column, and the empty string
    when no entry is found or the entry has no option.  A [null] catalog
    gives the same result as an empty catalog, for every column. *)
Theorem getDefaultValueForFieldType_defaults (column : Column.t)
    (customFields : option (list CustomField.t)) :
  (getUIFieldType column false = "boolean" ->
     getDefaultValueForFieldType now column customFields = DBoolean true)
  /\ (getUIFieldType column false = "date" ->
     getDefaultValueForFieldType now column customFields
       = DString (isoDate now))
  /\ (getUIFieldType column false = "number" ->
     getDefaultValueForFieldType now column customFields = DNumber 0)
  /\ (startsWith (Column.name column) "cf_" = true ->
      Column.cfType column = Some "OPTION" ->
      (forall cf o others,
         findCustomField column customFields = Some cf ->
         CustomField.options cf = Some (o :: others) ->
         getDefaultValueForFieldType now column customFields = DString o)
      /\ (findCustomField column customFields = None ->
         getDefaultValueForFieldType now column customFields = DString "")
      /\ (forall cf,
         findCustomField column customFields = Some cf ->
         CustomField.options cf = None \/ CustomField.options cf = Some [] ->
         getDefaultValueForFieldType now column customFields = DString ""))
  /\ getDefaultValueForFieldType now column None
     = getDefaultValueForFieldType now column (Some []).
Proof.
  destruct (getDefaultValueForFieldType_by_type column customFields)
    as [Hb [Hd Hn]].
  split; [exact Hb|]. split; [rewrite <- today_isoDate; exact Hd|].
  split; [exact Hn|]. split; [|reflexivity].
  intros Hcf Hkind.
  rewrite (getDefaultValueForFieldType_option _ _ Hcf Hkind).
  split; [|split].
  - intros cf o others -> Hopts. unfold firstOption. rewrite Hopts.
    f_equal. apply orEmpty_Some.
  - intros ->. reflexivity.
  - intros cf -> [Hopts|Hopts]; unfold firstOption; rewrite Hopts;
      reflexivity.
Qed.

Lemma find_retyped (f : string -> string) (p : CustomField.t -> bool) :
  (forall cf, p (retyped f cf) = p cf) ->
  forall cfs,
    find p (map (retyped f) cfs) = option_map (retyped f) (find p cfs).
Proof.
  intros Hp cfs. induction cfs as [|cf cfs IH]; [reflexivity|].
  cbn [map find]. rewrite Hp. destruct (p cf); [reflexivity | exact IH].
Qed.

Lemma firstOption_retyped (f : string -> string) (column : Column.t)
    (customFields : option (list CustomField.t)) :
  firstOption (findCustomField column (option_map (map (retyped f))
                                         customFields))
  = firstOption (findCustomField column customFields).
Proof.
  destruct customFields as [cfs|]; [|reflexivity].
  cbn [option_map findCustomField].
  rewrite find_retyped by reflexivity.
  destruct (find _ cfs); reflexivity.
Qed.

(** C10.  For a custom-field column whose kind is not OPTION the default
    does not depend on the catalog: any two catalogs, [null] included, give
    the same value.  The kind that selects the default is the column's own
    [cfType]: rewriting the [type] of the catalog entries changes the
    default of no column. *)
Theorem getDefaultValueForFieldType_catalog_independent
    (column : Column.t)
    (customFields1 customFields2 : option (list CustomField.t)) :
  startsWith (Column.name column) "cf_" = true ->
  Column.cfType column <> Some "OPTION" ->
  getDefaultValueForFieldType now column customFields1
  = getDefaultValueForFieldType now column customFields2
  /\ (forall f : string -> string,
        getDefaultValueForFieldType now column
          (option_map (map (retyped f)) customFields1)
        = getDefaultValueForFieldType now column customFields1).
Proof.
  intros Hcf Hkind.
  rewrite !(getDefaultValueForFieldType_custom _ _ Hcf).
  split.
  - destruct (Column.cfType column) as [k|]; [|reflexivity].
    case_kind k; try reflexivity. now elim Hkind.
  - intros f. rewrite (getDefaultValueForFieldType_custom _ _ Hcf).
    now rewrite firstOption_retyped.
Qed.

End Defaults.

Lemma getDefaultValueForFieldType_defaults_witness :
  getDefaultValueForFieldType sampleClock
    (Column.mk "availableToBook" true None) None = DBoolean true
  /\ getDefaultValueForFieldType sampleClock
    (Column.mk "cf_Bought" true (Some "DATE")) None = DString "2026-11-03"
  /\ getDefaultValueForFieldType sampleClock
    (Column.mk "valuation" true None) None = DNumber 0
  /\ getDefaultValueForFieldType sampleClock sizeColumn
    (Some sampleCustomFields) = DString "A"
  /\ getDefaultValueForFieldType sampleClock sizeColumn None = DString ""
  /\ getDefaultValueForFieldType sampleClock
    (Column.mk "cf_Colour" true (Some "OPTION")) (Some sampleCustomFields)
    = DString "".
Proof.
  refine (conj _ (conj _ (conj _ (conj _ (conj _ _))))).
  - exact (proj1 (getDefaultValueForFieldType_defaults sampleClock
                    (Column.mk "availableToBook" true None) None) eq_refl).
  - exact (proj1 (proj2 (getDefaultValueForFieldType_defaults sampleClock
                    (Column.mk "cf_Bought" true (Some "DATE")) None))
             eq_refl).
  - exact (proj1 (proj2 (proj2 (getDefaultValueForFieldType_defaults
                    sampleClock (Column.mk "valuation" true None) None)))
             eq_refl).
  - apply (proj1 (proj2 (proj2 (proj2
             (getDefaultValueForFieldType_defaults sampleClock sizeColumn
                (Some sampleCustomFields))))) eq_refl eq_refl)
      with (cf := CustomField.mk "Size" "OPTION" (Some ["A"; "B"]) false)
           (others := ["B"]); reflexivity.
  - apply (proj1 (proj2 (proj2 (proj2
             (getDefaultValueForFieldType_defaults sampleClock sizeColumn
                None)))) eq_refl eq_refl). reflexivity.
  - apply (proj1 (proj2 (proj2 (proj2
             (getDefaultValueForFieldType_defaults sampleClock
                (Column.mk "cf_Colour" true (Some "OPTION"))
                (Some sampleCustomFields))))) eq_refl eq_refl)
      with (cf := CustomField.mk "Colour" "OPTION" None false);
      [reflexivity | left; reflexivity].
Defined.

Lemma getDefaultValueForFieldType_catalog_independent_witness :
  getDefaultValueForFieldType sampleClock
    (Column.mk "cf_Size" true (Some "BOOLEAN")) (Some sampleCustomFields)
  = getDefaultValueForFieldType sampleClock
    (Column.mk "cf_Size" true (Some "BOOLEAN")) None.
Proof.
  refine (proj1 (getDefaultValueForFieldType_catalog_independent sampleClock
                   (Column.mk "cf_Size" true (Some "BOOLEAN"))
                   (Some sampleCustomFields) None eq_refl _)).
  discriminate.
Defined.

(* ================================================================= *)
(** ** The filter parameter parser *)

Section Parser.

Variable columns : list Column.t.

Lemma findColumn_Some (key : string) :
  In key (map Column.name columns) ->
  exists column,
    findColumn columns key = Some column /\ Column.name column = key.
Proof.
  intros Hin. unfold findColumn.
  destruct (find _ columns) as [c|] eqn:E.
  - exists c. split; [reflexivity|].
    apply find_some in E as [_ E]. now apply String.eqb_eq in E.
  - apply in_map_iff in Hin as [c [Hc Hin]].
    apply (find_none _ _ E) in Hin. rewrite Hc, String.eqb_refl in Hin.
    discriminate Hin.
Qed.

Lemma findColumn_None (key : string) :
  ~ In key (map Column.name columns) -> findColumn columns key = None.
Proof.
  intros Hnot. unfold findColumn.
  destruct (find _ columns) as [c|] eqn:E; [|reflexivity].
  apply find_some in E as [Hin E]. apply String.eqb_eq in E.
  exfalso. apply Hnot. rewrite <- E. now apply in_map.
Qed.

(** A [split] array with one element holds the whole string. *)
Lemma split_single (sep : ascii) (s : string) :
  snd (split sep s) = [] -> fst (split sep s) = s.
Proof.
  induction s as [|c s IH]; simpl; [reflexivity|].
  destruct (split sep s) as [h t]. simpl in IH.
  destruct (Ascii.eqb c sep); simpl; [discriminate|].
  intros Ht. now rewrite (IH Ht).
Qed.

(** One run of the callback: an unmatched entry leaves the array as it is,
    a matched one appends its descriptor, and the only throw is the one of
    a matched entry whose raw value is the bare word [between]. *)
Lemma pushInitialFilter_cases
    (initialFilters : list Filter.t) (entry : string * string) :
  match pushInitialFilter columns initialFilters entry with
  | Ok fs =>
      if matched columns entry
      then exists f,
          fs = (initialFilters ++ [f])%list /\ parsedFrom columns entry f
      else fs = initialFilters
  | Throw _ => matched columns entry = true /\ snd entry = "between"
  end.
Proof.
  destruct entry as [key value].
  unfold pushInitialFilter, matched, parsedFrom.
  cbn [fst snd].
  destruct (findColumn columns key) as [column|]; [|reflexivity].
  destruct (String.eqb_spec (fst (split ":" value)) "between") as [Hop|Hop].
  - destruct (snd (split ":" value)) as [|fv rest] eqn:Hrest.
    + cbn [nth_error bind]. split; [reflexivity|].
      rewrite <- Hop. symmetry. now apply split_single.
    + cbn [nth_error bind]. eexists. split; [reflexivity|].
      cbn [Filter.name Filter.operator Filter.value Filter.type].
      repeat split.
      * exists column. split; reflexivity.
      * intros Hne. now elim Hne.
      * intros _. exists fv. split; reflexivity.
  - cbn [bind]. eexists. split; [reflexivity|].
    cbn [Filter.name Filter.operator Filter.value Filter.type].
    repeat split.
    + exists column. split; reflexivity.
    + intros Heq. now elim Hop.
Qed.

Lemma pushInitialFilter_unmatched
    (initialFilters : list Filter.t) (key value : string) :
  findColumn columns key = None ->
  pushInitialFilter columns initialFilters (key, value) = Ok initialFilters.
Proof.
  intros H. unfold pushInitialFilter.
  now rewrite H.
Qed.

(** The whole loop, from any accumulator: when it completes, the
    descriptors appended are those of the matched entries, one each, in the
    order of the entries. *)
Lemma forEach_push_Ok (searchParams : list (string * string)) :
  forall initialFilters fs,
    forEach (pushInitialFilter columns) searchParams initialFilters = Ok fs ->
    exists added,
      fs = (initialFilters ++ added)%list
      /\ Forall2 (parsedFrom columns)
           (filter (matched columns) searchParams) added.
Proof.
  induction searchParams as [|entry rest IH]; intros acc fs H.
  - injection H as <-. exists []. split; [now rewrite app_nil_r|].
    constructor.
  - cbn [forEach] in H.
    pose proof (pushInitialFilter_cases acc entry) as Hstep.
    destruct (pushInitialFilter columns acc entry) as [acc'|e];
      [|discriminate H].
    cbn [bind] in H. destruct (IH _ _ H) as [added [-> Hadded]].
    cbn [filter]. destruct (matched columns entry).
    + destruct Hstep as [f [-> Hf]]. exists (f :: added). split.
      * now rewrite <- app_assoc.
      * now constructor.
    + subst acc'. exists added. split; [reflexivity | assumption].
Qed.

(** The loop throws only at a matched entry whose raw value is the bare
    word [between], and then it does throw. *)
Lemma forEach_push_Throw (searchParams : list (string * string)) :
  forall initialFilters,
    (exists e, forEach (pushInitialFilter columns) searchParams initialFilters
               = Throw e)
    <-> exists key, In (key, "between") searchParams
                    /\ In key (map Column.name columns).
Proof.
  induction searchParams as [|entry rest IH]; intros acc.
  - split; [intros [e H]; discriminate H | intros [k [[] _]]].
  - cbn [forEach].
    pose proof (pushInitialFilter_cases acc entry) as Hstep.
    destruct (pushInitialFilter columns acc entry) as [acc'|e] eqn:E.
    + cbn [bind]. rewrite IH. split.
      * intros [k [Hin Hk]]. exists k. split; [now right | assumption].
      * intros [k [[Heq|Hin] Hk]]; [|exists k; now split].
        exfalso. subst entry.
        destruct (findColumn_Some k Hk) as [c [Hc _]].
        unfold pushInitialFilter in E.
        rewrite Hc in E. discriminate E.
    + cbn [bind]. split; [|intros _; now exists e].
      intros _. destruct Hstep as [Hm Hv]. destruct entry as [k v].
      cbn [snd] in Hv. subst v. exists k. split; [now left|].
      unfold matched in Hm. cbn [fst] in Hm.
      destruct (in_dec string_dec k (map Column.name columns)) as [Hin|Hnot];
        [assumption|].
      rewrite (findColumn_None k Hnot) in Hm. discriminate Hm.
Qed.

(** An entry whose key names no column changes nothing, wherever it
    stands: not the array, and not whether the loop throws. *)
Lemma forEach_push_skip (before after : list (string * string))
    (entry : string * string) :
  findColumn columns (fst entry) = None ->
  forall initialFilters,
    forEach (pushInitialFilter columns) (before ++ entry :: after)
      initialFilters
    = forEach (pushInitialFilter columns) (before ++ after) initialFilters.
Proof.
  intros Hnone. destruct entry as [key value]. cbn [fst] in Hnone.
  induction before as [|b before IH]; intros acc.
  - cbn [app forEach]. now rewrite (pushInitialFilter_unmatched _ _ _ Hnone).
  - cbn [app forEach].
    destruct (pushInitialFilter columns acc b) as [acc'|e]; cbn [bind];
      [apply IH | reflexivity].
Qed.

(** The descriptor of a matched entry [key=op:rest] whose operator is not
    the range operator: the operator is the text before the first colon,
    the value is the text between the first colon and the second one. *)
Lemma pushInitialFilter_scalar (initialFilters : list Filter.t)
    (column : Column.t) (key op rest : string) :
  findColumn columns key = Some column ->
  occurs ":" op = false ->
  op <> "between" ->
  pushInitialFilter columns initialFilters (key, op ++ String ":" rest)
  = Ok (initialFilters
          ++ [Filter.mk key op (VScalar (fst (split ":" rest)))
                (getUIFieldType column false)])%list.
Proof.
  intros Hc Hop Hne. unfold pushInitialFilter. rewrite Hc.
  rewrite (split_first ":" op rest Hop). cbn [fst snd elements nth_error].
  apply String.eqb_neq in Hne. rewrite Hne. reflexivity.
Qed.

(** C4.  When every key of the parameters names a column of the catalog,
    the list the parser returns has one descriptor per parameter, in the
    order of the parameters: the i-th descriptor is the one parsed from the
    i-th parameter, so the names of the descriptors are the keys in order.
    The parser returns such a list unless some raw value is the bare word
    [between]. *)
Theorem useInitialFilters_preserves_order
    (searchParams : list (string * string)) :
  (forall entry, In entry searchParams ->
                 In (fst entry) (map Column.name columns)) ->
  match useInitialFilters columns searchParams with
  | Ok fs =>
      Forall2 (parsedFrom columns) searchParams fs
      /\ map Filter.name fs = map fst searchParams
  | Throw _ => exists key, In (key, "between") searchParams
  end.
Proof.
  intros Hall. unfold useInitialFilters.
  destruct (forEach _ searchParams []) as [fs|e] eqn:E.
  - apply forEach_push_Ok in E as [added [-> Hadded]]. cbn [app].
    assert (Hfilter : filter (matched columns) searchParams = searchParams).
    { apply forallb_filter_id. apply forallb_forall. intros entry Hin.
      unfold matched.
      destruct (findColumn_Some _ (Hall entry Hin)) as [c [-> _]].
      reflexivity. }
    rewrite Hfilter in Hadded. split; [assumption|].
    clear -Hadded. induction Hadded as [|entry f ps fs Hf _ IH];
      [reflexivity|].
    cbn [map]. destruct Hf as [-> _]. now rewrite IH.
  - destruct (proj1 (forEach_push_Throw searchParams [])) as [key [Hin _]];
      [now exists e|].
    now exists key.
Qed.

(** C5.  A parameter whose key names no column of the catalog yields no
    descriptor: the parser returns what it returns without that parameter.
    With a [status] column and no [unrelatedKey] column in the catalog, the
    parameters [unrelatedKey=x], [status=is:AVAILABLE] yield exactly one
    descriptor, of name [status], operator [is] and value [AVAILABLE]. *)
Theorem useInitialFilters_skips_unmatched :
  (forall before after key value,
     ~ In key (map Column.name columns) ->
     useInitialFilters columns (before ++ (key, value) :: after)
     = useInitialFilters columns (before ++ after))
  /\ (In "status" (map Column.name columns) ->
      ~ In "unrelatedKey" (map Column.name columns) ->
      useInitialFilters columns
        [("unrelatedKey", "x"); ("status", "is:AVAILABLE")]
      = Ok [Filter.mk "status" "is" (VScalar "AVAILABLE") "enum"]).
Proof.
  split.
  - intros before after key value Hnot. unfold useInitialFilters.
    apply forEach_push_skip. cbn [fst]. now apply findColumn_None.
  - intros Hstatus Hnot. unfold useInitialFilters. cbn [forEach].
    rewrite (pushInitialFilter_unmatched _ _ _ (findColumn_None _ Hnot)).
    cbn [bind].
    destruct (findColumn_Some _ Hstatus) as [c [Hc Hn]].
    change "is:AVAILABLE" with ("is" ++ String ":" "AVAILABLE").
    rewrite (pushInitialFilter_scalar [] c "status" "is" "AVAILABLE" Hc)
      by (reflexivity || discriminate).
    cbn [bind app]. unfold getUIFieldType, fieldTypeOf. rewrite Hn.
    reflexivity.
Qed.

(** C3.  Against a catalog with a [valuation] column, the parameter
    [valuation=between:10,50], which is the wire form of the descriptor of
    name [valuation], operator [between] and value [["10"; "50"]], parses
    back to one descriptor with that name, that operator and that
    two-element value in that order (its type is the resolved "number"). *)
Theorem useInitialFilters_between_roundtrip :
  In "valuation" (map Column.name columns) ->
  useInitialFilters columns [("valuation", "between:10,50")]
  = Ok [Filter.mk "valuation" "between" (VArray ["10"; "50"]) "number"].
Proof.
  intros Hin. destruct (findColumn_Some _ Hin) as [c [Hc Hn]].
  unfold useInitialFilters. cbn [forEach]. unfold pushInitialFilter.
  rewrite Hc. unfold getUIFieldType, fieldTypeOf. rewrite Hn. reflexivity.
Qed.

End Parser.

(** X12.  The parser throws exactly when some parameter has the key of a
    column and the bare word [between] as raw value; on every other input
    it returns a list. *)
Lemma useInitialFilters_Throw_iff (columns : list Column.t)
    (searchParams : list (string * string)) :
  (exists e, useInitialFilters columns searchParams = Throw e)
  <-> exists key, In (key, "between") searchParams
                  /\ In key (map Column.name columns).
Proof. apply forEach_push_Throw. Qed.

(** C1.  The parser does raise an exception: on the single parameter
    [valuation=between], whose operator token is the range operator and
    which has no colon, reading the value component gives [undefined] and
    splitting it on the comma throws a [TypeError]. *)
Theorem useInitialFilters_bare_between_throws :
  useInitialFilters [Column.mk "valuation" true None]
    [("valuation", "between")]
  = Throw TypeError.
Proof. reflexivity. Qed.

(** C2.  The value is not the whole remainder after the first colon: the
    raw value is split at every colon and only the first two pieces are
    kept, so [name=contains:Rack 4:B] yields the value [Rack 4], and the
    text from the second colon on is dropped. *)
Theorem useInitialFilters_drops_after_second_colon :
  useInitialFilters [Column.mk "name" true None]
    [("name", "contains:Rack 4:B")]
  = Ok [Filter.mk "name" "contains" (VScalar "Rack 4") "string"].
Proof. reflexivity. Qed.

Lemma useInitialFilters_preserves_order_witness :
  exists fs,
    useInitialFilters statusColumns sampleParams = Ok fs
    /\ map Filter.name fs = ["status"; "name"].
Proof.
  assert (Hall : forall entry, In entry sampleParams ->
                   In (fst entry) (map Column.name statusColumns)).
  { intros entry [<-|[<-|[]]]; cbn; tauto. }
  pose proof (useInitialFilters_preserves_order statusColumns sampleParams
                Hall) as H.
  destruct (useInitialFilters statusColumns sampleParams) as [fs|e] eqn:E.
  - exists fs. split; [reflexivity | exact (proj2 H)].
  - discriminate E.
Defined.

Lemma useInitialFilters_skips_unmatched_witness :
  useInitialFilters statusColumns
    [("unrelatedKey", "x"); ("status", "is:AVAILABLE")]
  = Ok [Filter.mk "status" "is" (VScalar "AVAILABLE") "enum"].
Proof.
  apply (proj2 (useInitialFilters_skips_unmatched statusColumns)).
  - cbn. tauto.
  - cbn. intros [H|[H|[]]]; discriminate H.
Defined.

Lemma useInitialFilters_between_roundtrip_witness :
  useInitialFilters sampleCatalog [("valuation", "between:10,50")]
  = Ok [Filter.mk "valuation" "between" (VArray ["10"; "50"]) "number"].
Proof.
  apply (useInitialFilters_between_roundtrip sampleCatalog).
  cbn. tauto.
Defined.

(* ================================================================= *)
(** ** More on the field type resolver *)

Section FieldTypeResolverMore.

Lemma fieldTypeOf_builtin (c1 c2 : Column.t) :
  Column.name c1 = Column.name c2 ->
  startsWith (Column.name c1) "cf_" = false ->
  fieldTypeOf c1 = fieldTypeOf c2.
Proof.
  intros Hname Hcf. unfold fieldTypeOf. rewrite <- Hname, Hcf. reflexivity.
Qed.

(** X1.  The technical type is always one of the seven strings of
    [UIFieldType], and the friendly name identifies it: two columns have
    the same friendly name exactly when they have the same technical
    type. *)
Theorem getUIFieldType_friendly_name (c1 c2 : Column.t) :
  In (getUIFieldType c1 false) uiFieldTypes
  /\ (getUIFieldType c1 true = getUIFieldType c2 true
      <-> getUIFieldType c1 false = getUIFieldType c2 false).
Proof.
  unfold getUIFieldType, uiFieldTypes.
  destruct (fieldTypeOf c1), (fieldTypeOf c2);
    (split; [simpl; tauto|]);
    split; intros H; try reflexivity; discriminate H.
Qed.

(** X2.  A custom-field column never resolves to "number" or to "array":
    its technical type is "string", "text", "boolean", "date" or
    "enum". *)
Theorem getUIFieldType_custom_range (column : Column.t) :
  startsWith (Column.name column) "cf_" = true ->
  In (getUIFieldType column false)
     ["string"; "text"; "boolean"; "date"; "enum"].
Proof.
  intros Hcf. unfold getUIFieldType. rewrite (fieldTypeOf_custom _ Hcf).
  unfold customFieldUIType.
  destruct (Column.cfType column) as [k|]; [|simpl; tauto].
  repeat match goal with
         | |- context [String.eqb k ?l] => destruct (String.eqb k l)
         end; simpl; tauto.
Qed.

Lemma getUIFieldType_custom_range_witness :
  In (getUIFieldType (Column.mk "cf_Weight" true (Some "NUMBER")) false)
     ["string"; "text"; "boolean"; "date"; "enum"].
Proof.
  exact (getUIFieldType_custom_range
           (Column.mk "cf_Weight" true (Some "NUMBER")) eq_refl).
Defined.

(** X3.  On a column whose name has no [cf_] prefix the resolver reads the
    name only: [cfType] and [visible] play no part.  When that name is,
    besides, none of the twelve built-in names, the type is "string". *)
Theorem getUIFieldType_builtin_by_name (c1 c2 : Column.t)
    (friendlyName : bool) :
  startsWith (Column.name c1) "cf_" = false ->
  (Column.name c1 = Column.name c2 ->
     getUIFieldType c1 friendlyName = getUIFieldType c2 friendlyName)
  /\ (~ In (Column.name c1) (map fst builtInTable) ->
     getUIFieldType c1 false = "string").
Proof.
  intros Hcf. split.
  - intros Hname. unfold getUIFieldType.
    now rewrite (fieldTypeOf_builtin c1 c2 Hname Hcf).
  - intros Hnot. unfold getUIFieldType, fieldTypeOf. rewrite Hcf.
    unfold builtInTable in Hnot. cbn [map fst] in Hnot.
    repeat match goal with
           | |- context [String.eqb (Column.name c1) ?l] =>
               destruct (String.eqb_spec (Column.name c1) l) as [E|_];
               [exfalso; apply Hnot; rewrite E; simpl; tauto|]
           end.
    reflexivity.
Qed.

Lemma getUIFieldType_builtin_by_name_witness :
  getUIFieldType (Column.mk "valuation" true (Some "BOOLEAN")) false
  = getUIFieldType (Column.mk "valuation" false None) false
  /\ getUIFieldType (Column.mk "serial" true (Some "DATE")) false = "string".
Proof.
  split.
  - exact (proj1 (getUIFieldType_builtin_by_name
                    (Column.mk "valuation" true (Some "BOOLEAN"))
                    (Column.mk "valuation" false None) false eq_refl)
             eq_refl).
  - refine (proj2 (getUIFieldType_builtin_by_name
                     (Column.mk "serial" true (Some "DATE"))
                     (Column.mk "serial" true (Some "DATE")) false eq_refl)
              _).
    unfold builtInTable. cbn [map fst Column.name]. intros H.
    repeat (destruct H as [H|H]; [discriminate H|]). exact H.
Defined.

End FieldTypeResolverMore.

(* ================================================================= *)
(** ** More on the column availability resolver *)

Section AvailabilityMore.

Variable columns : list Column.t.
Variable usedColumns : list FilterOrSort.

Lemma Subsequence_filter {A : Type} (p q : A -> bool) (l : list A) :
  (forall x, p x = true -> q x = true) ->
  Subsequence (filter p l) (filter q l).
Proof.
  intros Hpq. induction l as [|x l IH]; cbn [filter]; [constructor|].
  destruct (p x) eqn:Hp.
  - rewrite (Hpq x Hp). now constructor.
  - destruct (q x); [now constructor | assumption].
Qed.

Lemma Subsequence_filter_self {A : Type} (p : A -> bool) (l : list A) :
  Subsequence (filter p l) l.
Proof.
  induction l as [|x l IH]; cbn [filter]; [constructor|].
  destruct (p x); now constructor.
Qed.

Lemma Subsequence_trans {A : Type} (xs ys zs : list A) :
  Subsequence xs ys -> Subsequence ys zs -> Subsequence xs zs.
Proof.
  intros Hxy Hyz. revert xs Hxy.
  induction Hyz as [|z ys zs _ IH|y ys zs _ IH]; intros xs Hxy.
  - assumption.
  - constructor. now apply IH.
  - inversion Hxy; subst; constructor; now apply IH.
Qed.

Lemma visibleAndUnused_true (column : Column.t) :
  visibleAndUnused usedColumns column = true <->
  Column.visible column = true
  /\ ~ In (Column.name column) (map usedName usedColumns).
Proof.
  unfold visibleAndUnused. rewrite andb_true_iff, <- findUsed_none.
  destruct (findUsed usedColumns column); cbn [negb];
    intuition discriminate.
Qed.

Lemma allowedFor_sort_true (column : Column.t) :
  allowedFor OpSort column = true <->
  Column.visible column = true
  /\ Column.name column <> "tags"
  /\ ~ (startsWith (Column.name column) "cf_" = true
        /\ Column.cfType column = Some "MULTILINE_TEXT").
Proof.
  unfold allowedFor.
  destruct (Column.visible column); cbn [negb];
    [|split; [discriminate | intros [H _]; discriminate H]].
  unfold includes. cbn [existsb]. rewrite !orb_false_r.
  destruct (String.eqb_spec (Column.name column) "tags") as [Et|Et].
  - split; [discriminate | intros [_ [H _]]; now elim H].
  - destruct (startsWith (Column.name column) "cf_").
    + destruct (Column.cfType column) as [k|].
      * destruct (String.eqb_spec k "") as [->|Ek]; cbn [negb].
        -- split; [|reflexivity]. intros _.
           repeat split; try assumption. intros [_ H]. discriminate H.
        -- destruct (String.eqb_spec k "MULTILINE_TEXT") as [->|Em];
             cbn [negb].
           ++ split; [discriminate|]. intros [_ [_ H]]. elim H. now split.
           ++ split; [|reflexivity]. intros _.
              repeat split; try assumption. intros [_ H].
              injection H as H. contradiction.
      * cbn. split; [|reflexivity]. intros _.
        repeat split; try assumption. intros [_ H]. discriminate H.
    + split; [|reflexivity]. intros _.
      repeat split; try assumption. intros [H _]. discriminate H.
Qed.

Lemma allowedFor_filter_true (column : Column.t) :
  allowedFor OpFilter column = Column.visible column.
Proof. unfold allowedFor. destruct (Column.visible column); reflexivity. Qed.

(** X4.  [getAvailableColumns] returns exactly the columns it should: a
    column is returned if and only if it is in the catalog, is visible,
    has a name no used column has and, for [sort], is neither the [tags]
    column nor a custom-field column of kind MULTILINE_TEXT.  Nothing else
    excludes a column. *)
Theorem getAvailableColumns_exactly
    (operation : Operation) (column : Column.t) :
  In column (getAvailableColumns columns usedColumns operation) <->
  In column columns
  /\ Column.visible column = true
  /\ ~ In (Column.name column) (map usedName usedColumns)
  /\ (operation = OpSort ->
      Column.name column <> "tags"
      /\ ~ (startsWith (Column.name column) "cf_" = true
            /\ Column.cfType column = Some "MULTILINE_TEXT")).
Proof.
  rewrite getAvailableColumns_In, visibleAndUnused_true.
  destruct operation.
  - rewrite allowedFor_filter_true. intuition discriminate.
  - rewrite allowedFor_sort_true. intuition.
Qed.

(** X5.  The result keeps the order of the catalog: the columns offered
    for filtering are the catalog with some columns left out, and the
    columns offered for sorting are those offered for filtering with some
    left out. *)
Theorem getAvailableColumns_order :
  Subsequence (getAvailableColumns columns usedColumns OpFilter) columns
  /\ Subsequence (getAvailableColumns columns usedColumns OpSort)
       (getAvailableColumns columns usedColumns OpFilter).
Proof.
  unfold getAvailableColumns. split.
  - eapply Subsequence_trans; apply Subsequence_filter_self.
  - apply Subsequence_filter. intros c Hc.
    apply allowedFor_sort_true in Hc as [Hv _].
    now rewrite allowedFor_filter_true.
Qed.

(** X6.  Asking again changes nothing: the columns available among the
    available columns are the available columns. *)
Theorem getAvailableColumns_idempotent (operation : Operation) :
  getAvailableColumns
    (getAvailableColumns columns usedColumns operation) usedColumns operation
  = getAvailableColumns columns usedColumns operation.
Proof.
  unfold getAvailableColumns at 1.
  assert (Hall : forall c,
             In c (getAvailableColumns columns usedColumns operation) ->
             visibleAndUnused usedColumns c = true
             /\ allowedFor operation c = true).
  { intros c Hc. now apply getAvailableColumns_In in Hc as [_ Hc]. }
  rewrite (forallb_filter_id (visibleAndUnused usedColumns)).
  - apply forallb_filter_id. apply forallb_forall. intros c Hc.
    now apply Hall.
  - apply forallb_forall. intros c Hc. now apply Hall.
Qed.

Lemma visibleAndUnused_cons (used : FilterOrSort) (c : Column.t) :
  visibleAndUnused (used :: usedColumns) c
  = visibleAndUnused usedColumns c
    && negb (String.eqb (usedName used) (Column.name c)).
Proof.
  unfold visibleAndUnused, findUsed. cbn [find].
  destruct (String.eqb (usedName used) (Column.name c)); cbn [negb].
  - now rewrite !andb_false_r.
  - now rewrite andb_true_r.
Qed.

(** X7.  Using one more column removes the columns of that name from the
    offer and nothing else, whatever the operation. *)
Theorem getAvailableColumns_use (used : FilterOrSort)
    (operation : Operation) :
  getAvailableColumns columns (used :: usedColumns) operation
  = filter (fun c => negb (String.eqb (usedName used) (Column.name c)))
      (getAvailableColumns columns usedColumns operation).
Proof.
  unfold getAvailableColumns.
  induction columns as [|c cs IH]; [reflexivity|].
  cbn [filter]. rewrite visibleAndUnused_cons.
  destruct (visibleAndUnused usedColumns c); cbn [andb]; [|exact IH].
  destruct (String.eqb (usedName used) (Column.name c)) eqn:E; cbn [negb].
  - cbn [filter]. destruct (allowedFor operation c); [|exact IH].
    cbn [filter]. rewrite E. exact IH.
  - cbn [filter]. destruct (allowedFor operation c); [|exact IH].
    cbn [filter]. rewrite E. cbn [negb]. now rewrite IH.
Qed.

End AvailabilityMore.

Lemma getAvailableColumns_exactly_witness :
  In serialColumn (getAvailableColumns sampleCatalog sampleUsed OpSort).
Proof.
  apply (getAvailableColumns_exactly sampleCatalog sampleUsed OpSort).
  split; [cbn; tauto|]. split; [reflexivity|]. split.
  - cbn. intros [H|[]]. discriminate H.
  - intros _. split; [discriminate|]. intros [_ H]. discriminate H.
Defined.

(* ================================================================= *)
(** ** More on the default value generator *)

Section DefaultsMore.

Variable now : Date.

Ltac by_kind k :=
  repeat match goal with
         | |- context [String.eqb k ?l] =>
             destruct (String.eqb_spec k l); subst; cbn
         end.

(** X8.  The default has the shape of the column's type: it is the boolean
    [true] only on a boolean-typed column, the number [0] only on a
    number-typed column, and a string on every other column. *)
Theorem getDefaultValueForFieldType_shape (column : Column.t)
    (customFields : option (list CustomField.t)) :
  match getDefaultValueForFieldType now column customFields with
  | DBoolean b => b = true /\ getUIFieldType column false = "boolean"
  | DNumber n => n = 0%Z /\ getUIFieldType column false = "number"
  | DString _ => getUIFieldType column false <> "boolean"
                 /\ getUIFieldType column false <> "number"
  end.
Proof.
  destruct (startsWith (Column.name column) "cf_") eqn:Hcf.
  - rewrite (getDefaultValueForFieldType_custom now _ _ Hcf).
    unfold getUIFieldType. rewrite (fieldTypeOf_custom _ Hcf).
    unfold customFieldUIType.
    destruct (Column.cfType column) as [k|];
      [|split; discriminate].
    by_kind k; try discriminate; split; (reflexivity || discriminate).
  - unfold getDefaultValueForFieldType. rewrite Hcf.
    unfold getUIFieldType.
    destruct (fieldTypeOf column); cbn; split;
      (reflexivity || discriminate).
Qed.

(** X9.  The default of a custom-field column of kind OPTION is a legal
    choice: it is a string, and unless it is empty it is one of the
    options of a catalog entry named like the column. *)
Theorem getDefaultValueForFieldType_option_legal (column : Column.t)
    (customFields : option (list CustomField.t)) :
  startsWith (Column.name column) "cf_" = true ->
  Column.cfType column = Some "OPTION" ->
  exists s,
    getDefaultValueForFieldType now column customFields = DString s
    /\ (s = ""
        \/ exists cfs cf opts,
             customFields = Some cfs
             /\ In cf cfs
             /\ "cf_" ++ CustomField.name cf = Column.name column
             /\ CustomField.options cf = Some opts
             /\ In s opts).
Proof.
  intros Hcf Hkind.
  rewrite (getDefaultValueForFieldType_option now _ _ Hcf Hkind).
  eexists. split; [reflexivity|].
  destruct customFields as [cfs|]; [|now left]. unfold findCustomField.
  destruct (find _ cfs) as [cf|] eqn:E; [|now left].
  apply find_some in E as [Hin Hname]. apply String.eqb_eq in Hname.
  unfold firstOption.
  destruct (CustomField.options cf) as [[|o others]|] eqn:Hopts;
    try (now left).
  cbn [nth_error]. rewrite (orEmpty_Some o). right.
  exists cfs, cf, (o :: others). repeat split; try assumption. now left.
Qed.

(** X10.  Of several catalog entries named like the column only the first
    counts: the default is the one the catalog reduced to that entry
    gives. *)
Theorem getDefaultValueForFieldType_first_entry (column : Column.t)
    (before after : list CustomField.t) (cf : CustomField.t) :
  "cf_" ++ CustomField.name cf = Column.name column ->
  (forall other, In other before ->
                 "cf_" ++ CustomField.name other <> Column.name column) ->
  getDefaultValueForFieldType now column (Some (before ++ cf :: after)%list)
  = getDefaultValueForFieldType now column (Some [cf]).
Proof.
  intros Hcf Hbefore.
  assert (Hfind : findCustomField column (Some (before ++ cf :: after)%list)
                  = findCustomField column (Some [cf])).
  { unfold findCustomField. cbn [find]. rewrite Hcf, String.eqb_refl.
    induction before as [|b before IH]; cbn [app find].
    - now rewrite Hcf, String.eqb_refl.
    - destruct (String.eqb_spec ("cf_" ++ CustomField.name b)
                  (Column.name column)) as [E|_].
      + exfalso. apply (Hbefore b); [now left | exact E].
      + apply IH. intros other Hin. apply Hbefore. now right. }
  unfold getDefaultValueForFieldType. now rewrite Hfind.
Qed.

(** X11.  On a column whose name has no [cf_] prefix the default is read
    off the name alone: neither the catalog, nor the column's [cfType],
    nor its [visible] flag changes it. *)
Theorem getDefaultValueForFieldType_builtin (c1 c2 : Column.t)
    (customFields1 customFields2 : option (list CustomField.t)) :
  startsWith (Column.name c1) "cf_" = false ->
  Column.name c1 = Column.name c2 ->
  getDefaultValueForFieldType now c1 customFields1
  = getDefaultValueForFieldType now c2 customFields2.
Proof.
  intros Hcf Hname. unfold getDefaultValueForFieldType.
  rewrite <- Hname, Hcf. unfold getUIFieldType.
  now rewrite (fieldTypeOf_builtin c1 c2 Hname Hcf).
Qed.

End DefaultsMore.

Lemma getDefaultValueForFieldType_option_legal_witness :
  exists s,
    getDefaultValueForFieldType sampleClock sizeColumn
      (Some sampleCustomFields) = DString s
    /\ (s = ""
        \/ exists cfs cf opts,
             Some sampleCustomFields = Some cfs
             /\ In cf cfs
             /\ "cf_" ++ CustomField.name cf = Column.name sizeColumn
             /\ CustomField.options cf = Some opts
             /\ In s opts).
Proof.
  exact (getDefaultValueForFieldType_option_legal sampleClock sizeColumn
           (Some sampleCustomFields) eq_refl eq_refl).
Defined.

Lemma getDefaultValueForFieldType_first_entry_witness :
  getDefaultValueForFieldType sampleClock sizeColumn
    (Some sampleCustomFields)
  = getDefaultValueForFieldType sampleClock sizeColumn
      (Some [CustomField.mk "Size" "OPTION" (Some ["A"; "B"]) false]).
Proof.
  refine (getDefaultValueForFieldType_first_entry sampleClock sizeColumn
            [CustomField.mk "Colour" "OPTION" None false]
            [CustomField.mk "Size" "OPTION" (Some ["Z"]) true]
            (CustomField.mk "Size" "OPTION" (Some ["A"; "B"]) false)
            eq_refl _).
  intros other [<-|[]]. discriminate.
Defined.

Lemma getDefaultValueForFieldType_builtin_witness :
  getDefaultValueForFieldType sampleClock
    (Column.mk "valuation" true (Some "BOOLEAN")) (Some sampleCustomFields)
  = getDefaultValueForFieldType sampleClock
      (Column.mk "valuation" false None) None.
Proof.
  exact (getDefaultValueForFieldType_builtin sampleClock
           (Column.mk "valuation" true (Some "BOOLEAN"))
           (Column.mk "valuation" false None)
           (Some sampleCustomFields) None eq_refl eq_refl).
Defined.

(* ================================================================= *)
(** ** More on the filter parameter parser *)

Section ParserMore.

Variable columns : list Column.t.

Lemma forEach_app {A S : Type} (cb : S -> A -> result S)
    (xs ys : list A) :
  forall st,
    forEach cb (xs ++ ys)%list st = bind (forEach cb xs st) (forEach cb ys).
Proof.
  induction xs as [|x xs IH]; intros st; [reflexivity|].
  cbn [app forEach]. destruct (cb st x) as [st'|e]; cbn [bind];
    [apply IH | reflexivity].
Qed.

Lemma forEach_ext {A S : Type} (cb1 cb2 : S -> A -> result S) :
  (forall st x, cb1 st x = cb2 st x) ->
  forall xs st, forEach cb1 xs st = forEach cb2 xs st.
Proof.
  intros Hcb xs. induction xs as [|x xs IH]; intros st; [reflexivity|].
  cbn [forEach]. rewrite Hcb.
  destruct (cb2 st x) as [st'|e]; cbn [bind]; [apply IH | reflexivity].
Qed.

(** The callback only appends: from any array it does what it does from
    the empty one, after the elements already there. *)
Lemma pushInitialFilter_from (initialFilters : list Filter.t)
    (entry : string * string) :
  pushInitialFilter columns initialFilters entry
  = bind (pushInitialFilter columns [] entry)
      (fun fs => Ok (initialFilters ++ fs)%list).
Proof.
  destruct entry as [key value]. unfold pushInitialFilter.
  destruct (findColumn columns key) as [column|];
    [|cbn [bind]; now rewrite app_nil_r].
  destruct (String.eqb (fst (split ":" value)) "between").
  - destruct (nth_error (snd (split ":" value)) 0); reflexivity.
  - reflexivity.
Qed.

Lemma forEach_push_from (searchParams : list (string * string)) :
  forall initialFilters,
    forEach (pushInitialFilter columns) searchParams initialFilters
    = bind (forEach (pushInitialFilter columns) searchParams [])
        (fun fs => Ok (initialFilters ++ fs)%list).
Proof.
  induction searchParams as [|entry rest IH]; intros acc.
  - cbn [forEach bind]. now rewrite app_nil_r.
  - cbn [forEach]. rewrite (pushInitialFilter_from acc entry).
    destruct (pushInitialFilter columns [] entry) as [f1|e]; cbn [bind];
      [|reflexivity].
    rewrite (IH (acc ++ f1)%list), (IH f1).
    destruct (forEach (pushInitialFilter columns) rest []) as [fs|e];
      cbn [bind]; [|reflexivity].
    now rewrite app_assoc.
Qed.

Lemma Forall2_In_r {A B : Type} (R : A -> B -> Prop)
    (xs : list A) (ys : list B) :
  Forall2 R xs ys -> forall y, In y ys -> exists x, In x xs /\ R x y.
Proof.
  induction 1 as [|x y xs ys Hxy _ IH]; intros y' Hin; [destruct Hin|].
  destruct Hin as [<-|Hin].
  - exists x. split; [now left | assumption].
  - destruct (IH y' Hin) as [x' [Hx' HR]]. exists x'. split;
      [now right | assumption].
Qed.

Lemma Forall2_In_l {A B : Type} (R : A -> B -> Prop)
    (xs : list A) (ys : list B) :
  Forall2 R xs ys -> forall x, In x xs -> exists y, In y ys /\ R x y.
Proof.
  induction 1 as [|x y xs ys Hxy _ IH]; intros x' Hin; [destruct Hin|].
  destruct Hin as [<-|Hin].
  - exists y. split; [now left | assumption].
  - destruct (IH x' Hin) as [y' [Hy' HR]]. exists y'. split;
      [now right | assumption].
Qed.

(** X13.  Parsing is compositional: the parameters [first] followed by
    [second] parse to the descriptors of [first] followed by those of
    [second], and a throw in either part is a throw of the whole. *)
Theorem useInitialFilters_app (first second : list (string * string)) :
  useInitialFilters columns (first ++ second)%list
  = bind (useInitialFilters columns first)
      (fun fs1 =>
         bind (useInitialFilters columns second)
           (fun fs2 => Ok (fs1 ++ fs2)%list)).
Proof.
  unfold useInitialFilters. rewrite forEach_app.
  destruct (forEach (pushInitialFilter columns) first []) as [fs1|e];
    cbn [bind]; [|reflexivity].
  apply forEach_push_from.
Qed.

(** X14.  When the parser returns, it returns one descriptor for each
    parameter whose key names a column, and every descriptor carries the
    key of a parameter, which is the name of a column of the catalog, and
    one of the seven UI field types. *)
Theorem useInitialFilters_descriptors
    (searchParams : list (string * string)) (fs : list Filter.t) :
  useInitialFilters columns searchParams = Ok fs ->
  length fs = length (filter (matched columns) searchParams)
  /\ forall f, In f fs ->
       In (Filter.name f) (map fst searchParams)
       /\ In (Filter.name f) (map Column.name columns)
       /\ In (Filter.type f) uiFieldTypes.
Proof.
  intros H. apply forEach_push_Ok in H as [added [-> Hadded]].
  cbn [app]. split; [symmetry; eapply Forall2_length; eassumption|].
  intros f Hf.
  destruct (Forall2_In_r _ _ _ Hadded f Hf) as [entry [Hin Hparsed]].
  apply filter_In in Hin as [Hin _].
  destruct Hparsed as [Hname [_ [[column [Hfind Htype]] _]]].
  split; [|split].
  - rewrite Hname. now apply in_map.
  - apply find_some in Hfind as [Hc Heq]. apply String.eqb_eq in Heq.
    rewrite Hname, <- Heq. now apply in_map.
  - rewrite Htype. unfold getUIFieldType, uiFieldTypes.
    destruct (fieldTypeOf column); simpl; tauto.
Qed.

(** X15.  A value without a colon comes back whole: for a key that names
    a column, an operator without a colon other than [between], and a
    value without a colon, the parameter [key=operator:value] parses to
    the one descriptor with that operator and that value. *)
Theorem useInitialFilters_scalar_roundtrip
    (column : Column.t) (key operator value : string) :
  findColumn columns key = Some column ->
  occurs ":" operator = false ->
  occurs ":" value = false ->
  operator <> "between" ->
  useInitialFilters columns [(key, operator ++ String ":" value)]
  = Ok [Filter.mk key operator (VScalar value)
          (getUIFieldType column false)].
Proof.
  intros Hc Hop Hv Hne. unfold useInitialFilters. cbn [forEach].
  rewrite (pushInitialFilter_scalar columns [] column key operator value
             Hc Hop Hne).
  cbn [bind app]. now rewrite (split_absent ":" value Hv).
Qed.

Lemma join_cons (sep : ascii) (x y : string) (l : list string) :
  join sep (x :: y :: l) = x ++ String sep (join sep (y :: l)).
Proof. reflexivity. Qed.

Lemma join_split (sep : ascii) (s : string) :
  join sep (elements (split sep s)) = s.
Proof.
  unfold elements.
  induction s as [|c s IH]; [reflexivity|]. cbn [split].
  destruct (split sep s) as [h t]. cbn [fst snd] in *.
  destruct (Ascii.eqb_spec c sep) as [->|_]; cbn [fst snd].
  - rewrite join_cons, IH. reflexivity.
  - destruct t as [|x t].
    + change (join sep [h]) with h in IH. now rewrite <- IH.
    + rewrite join_cons in *. cbn [append]. now rewrite IH.
Qed.

(** X16.  A range value is split on its commas and nothing is lost: for a
    key that names a column and a value without a colon, the parameter
    [key=between:value] parses to one descriptor whose value is an array,
    and joining that array with commas gives the value back. *)
Theorem useInitialFilters_range_join
    (column : Column.t) (key value : string) :
  findColumn columns key = Some column ->
  occurs ":" value = false ->
  exists components,
    useInitialFilters columns [(key, "between:" ++ value)]
    = Ok [Filter.mk key "between" (VArray components)
            (getUIFieldType column false)]
    /\ join "," components = value.
Proof.
  intros Hc Hv. exists (elements (split "," value)).
  split; [|apply join_split].
  unfold useInitialFilters. cbn [forEach]. unfold pushInitialFilter.
  rewrite Hc.
  change ("between:" ++ value) with ("between" ++ String ":" value).
  rewrite (split_first ":" "between" value eq_refl).
  rewrite (split_absent ":" value Hv). reflexivity.
Qed.

(** X17.  A two-sided range comes back as the pair it was written from:
    for [from] and [to] without comma or colon, the parameter
    [key=between:from,to] parses to the descriptor of value
    [[from; to]]. *)
Theorem useInitialFilters_range_roundtrip
    (column : Column.t) (key from to : string) :
  findColumn columns key = Some column ->
  occurs ":" from = false -> occurs "," from = false ->
  occurs ":" to = false -> occurs "," to = false ->
  useInitialFilters columns [(key, "between:" ++ from ++ String "," to)]
  = Ok [Filter.mk key "between" (VArray [from; to])
          (getUIFieldType column false)].
Proof.
  intros Hc Hf1 Hf2 Ht1 Ht2.
  unfold useInitialFilters. cbn [forEach]. unfold pushInitialFilter.
  rewrite Hc.
  change ("between:" ++ from ++ String "," to)
    with ("between" ++ String ":" (from ++ String "," to)).
  rewrite (split_first ":" "between" _ eq_refl).
  assert (Hv : occurs ":" (from ++ String "," to) = false).
  { rewrite occurs_app, Hf1. cbn. exact Ht1. }
  rewrite (split_absent ":" _ Hv). cbn [fst snd elements nth_error].
  cbn [String.eqb Ascii.eqb Bool.eqb]. cbn [bind].
  rewrite (split_first "," from to Hf2), (split_absent "," to Ht2).
  reflexivity.
Qed.

(** X18.  A raw value without a colon, other than the bare word
    [between], is kept as the operator, and the descriptor's value is
    undefined. *)
Theorem useInitialFilters_no_colon
    (column : Column.t) (key raw : string) :
  findColumn columns key = Some column ->
  occurs ":" raw = false ->
  raw <> "between" ->
  useInitialFilters columns [(key, raw)]
  = Ok [Filter.mk key raw VUndefined (getUIFieldType column false)].
Proof.
  intros Hc Hraw Hne. unfold useInitialFilters. cbn [forEach].
  unfold pushInitialFilter. rewrite Hc, (split_absent ":" raw Hraw).
  cbn [fst snd nth_error]. apply String.eqb_neq in Hne. now rewrite Hne.
Qed.

(** X19.  A column that a parsed filter uses is not offered again: when
    the parser returns [fs], no column available beside the filters [fs],
    for filtering or for sorting, has the key of a parameter as its
    name. *)
Theorem useInitialFilters_then_available
    (searchParams : list (string * string)) (fs : list Filter.t)
    (operation : Operation) (column : Column.t) :
  useInitialFilters columns searchParams = Ok fs ->
  In column (getAvailableColumns columns (map IsFilter fs) operation) ->
  ~ In (Column.name column) (map fst searchParams).
Proof.
  intros Hparse Havail Hkey.
  apply forEach_push_Ok in Hparse as [added [-> Hadded]]. cbn [app] in *.
  apply getAvailableColumns_In in Havail as [Hin [Hunused _]].
  apply visibleAndUnused_true in Hunused as [_ Hunused].
  apply Hunused. rewrite map_map. cbn [usedName].
  apply in_map_iff in Hkey as [[key value] [Hk Hentry]]. cbn [fst] in Hk.
  assert (Hm : matched columns (key, value) = true).
  { unfold matched. cbn [fst]. rewrite Hk.
    destruct (findColumn_Some columns (Column.name column)) as [c [-> _]];
      [now apply in_map | reflexivity]. }
  destruct (Forall2_In_l _ _ _ Hadded (key, value)) as [f [Hf Hparsed]].
  { apply filter_In. now split. }
  destruct Hparsed as [Hname _]. cbn [fst] in Hname.
  rewrite <- Hk, <- Hname. now apply in_map.
Qed.

End ParserMore.

Lemma fieldTypeOf_sameUpToVisible (c1 c2 : Column.t) :
  sameUpToVisible c1 c2 -> fieldTypeOf c1 = fieldTypeOf c2.
Proof.
  intros [Hname Hkind]. unfold fieldTypeOf. now rewrite Hname, Hkind.
Qed.

Lemma findColumn_sameUpToVisible (columns1 columns2 : list Column.t)
    (key : string) :
  Forall2 sameUpToVisible columns1 columns2 ->
  match findColumn columns1 key, findColumn columns2 key with
  | Some c1, Some c2 => sameUpToVisible c1 c2
  | None, None => True
  | _, _ => False
  end.
Proof.
  unfold findColumn.
  induction 1 as [|c1 c2 cs1 cs2 Hc _ IH]; cbn [find]; [exact I|].
  destruct Hc as [Hname Hkind]. rewrite <- Hname.
  destruct (String.eqb (Column.name c1) key); [now split | exact IH].
Qed.

(** X20.  The parser does not look at [visible]: two catalogs that differ
    in their [visible] flags only give the same result, so the parameter
    of a hidden column is parsed like any other. *)
Theorem useInitialFilters_ignores_visible
    (columns1 columns2 : list Column.t)
    (searchParams : list (string * string)) :
  Forall2 sameUpToVisible columns1 columns2 ->
  useInitialFilters columns1 searchParams
  = useInitialFilters columns2 searchParams.
Proof.
  intros Hsame. unfold useInitialFilters. apply forEach_ext.
  intros acc [key value]. unfold pushInitialFilter.
  pose proof (findColumn_sameUpToVisible _ _ key Hsame) as Hfind.
  destruct (findColumn columns1 key) as [c1|],
           (findColumn columns2 key) as [c2|];
    try contradiction; [|reflexivity].
  unfold getUIFieldType.
  now rewrite (fieldTypeOf_sameUpToVisible c1 c2 Hfind).
Qed.

Lemma useInitialFilters_descriptors_witness :
  length [Filter.mk "status" "is" (VScalar "AVAILABLE") "enum"]
  = length (filter (matched statusColumns)
              [("unrelatedKey", "x"); ("status", "is:AVAILABLE")])
  /\ forall f,
       In f [Filter.mk "status" "is" (VScalar "AVAILABLE") "enum"] ->
       In (Filter.name f)
          (map fst [("unrelatedKey", "x"); ("status", "is:AVAILABLE")])
       /\ In (Filter.name f) (map Column.name statusColumns)
       /\ In (Filter.type f) uiFieldTypes.
Proof.
  exact (useInitialFilters_descriptors statusColumns
           [("unrelatedKey", "x"); ("status", "is:AVAILABLE")]
           [Filter.mk "status" "is" (VScalar "AVAILABLE") "enum"] eq_refl).
Defined.

Lemma useInitialFilters_scalar_roundtrip_witness :
  useInitialFilters statusColumns [("name", "contains:drill")]
  = Ok [Filter.mk "name" "contains" (VScalar "drill") "string"].
Proof.
  refine (useInitialFilters_scalar_roundtrip statusColumns
            (Column.mk "name" true None) "name" "contains" "drill"
            eq_refl eq_refl eq_refl _).
  discriminate.
Defined.

Lemma useInitialFilters_range_join_witness :
  exists components,
    useInitialFilters sampleCatalog [("valuation", "between:10,50,90")]
    = Ok [Filter.mk "valuation" "between" (VArray components) "number"]
    /\ join "," components = "10,50,90".
Proof.
  exact (useInitialFilters_range_join sampleCatalog
           (Column.mk "valuation" false None) "valuation" "10,50,90"
           eq_refl eq_refl).
Defined.

Lemma useInitialFilters_range_roundtrip_witness :
  useInitialFilters sampleCatalog [("valuation", "between:10,50")]
  = Ok [Filter.mk "valuation" "between" (VArray ["10"; "50"]) "number"].
Proof.
  exact (useInitialFilters_range_roundtrip sampleCatalog
           (Column.mk "valuation" false None) "valuation" "10" "50"
           eq_refl eq_refl eq_refl eq_refl eq_refl).
Defined.

Lemma useInitialFilters_no_colon_witness :
  useInitialFilters statusColumns [("status", "AVAILABLE")]
  = Ok [Filter.mk "status" "AVAILABLE" VUndefined "enum"].
Proof.
  refine (useInitialFilters_no_colon statusColumns
            (Column.mk "status" true None) "status" "AVAILABLE"
            eq_refl eq_refl _).
  discriminate.
Defined.

Lemma useInitialFilters_ignores_visible_witness :
  useInitialFilters statusColumns sampleParams
  = useInitialFilters hiddenCatalog sampleParams.
Proof.
  apply (useInitialFilters_ignores_visible statusColumns hiddenCatalog).
  repeat constructor.
Defined.

Lemma useInitialFilters_then_available_witness :
  In (Column.mk "tags" true None)
     (getAvailableColumns sampleCatalog
        (map IsFilter
           [Filter.mk "status" "is" (VScalar "AVAILABLE") "enum"])
        OpFilter)
  /\ ~ In "tags" (map fst [("status", "is:AVAILABLE")]).
Proof.
  assert (H : In (Column.mk "tags" true None)
                (getAvailableColumns sampleCatalog
                   (map IsFilter
                      [Filter.mk "status" "is" (VScalar "AVAILABLE") "enum"])
                   OpFilter)).
  { vm_compute. tauto. }
  split; [exact H|].
  exact (useInitialFilters_then_available sampleCatalog
           [("status", "is:AVAILABLE")]
           [Filter.mk "status" "is" (VScalar "AVAILABLE") "enum"]
           OpFilter (Column.mk "tags" true None) eq_refl H).
Defined.

(* ================================================================= *)
(** ** The guards of the route loaders, and the features of a price *)

Section Loaders.

Variables SELF_SERVICE DRAFT COMPLETE ARCHIVED : string.

(** X21.  The scan-assets loader lets a request through exactly when the
    booking has both its dates, is neither complete nor archived and, for
    a self-service user, is a draft; then it returns the booking under the
    title built from its name.  In every other case it throws the
    "not allowed" error. *)
Theorem scanAssets_loader_guard (role : string)
    (booking : ScanAssets.Booking) :
  let allowed :=
    ScanAssets.from booking <> None
    /\ ScanAssets.to booking <> None
    /\ ScanAssets.status booking <> COMPLETE
    /\ ScanAssets.status booking <> ARCHIVED
    /\ (role = SELF_SERVICE -> ScanAssets.status booking = DRAFT) in
  (allowed ->
     ScanAssets.loader SELF_SERVICE DRAFT COMPLETE ARCHIVED role booking
     = inr ("Scan assets for booking | " ++ ScanAssets.name booking,
            booking))
  /\ (~ allowed ->
     ScanAssets.loader SELF_SERVICE DRAFT COMPLETE ARCHIVED role booking
     = inl ScanAssets.notAllowed).
Proof.
  unfold ScanAssets.loader, ScanAssets.canManageAssets, ScanAssets.present.
  cbv zeta.
  destruct (ScanAssets.from booking), (ScanAssets.to booking);
    destruct (String.eqb_spec (ScanAssets.status booking) COMPLETE);
    destruct (String.eqb_spec (ScanAssets.status booking) ARCHIVED);
    destruct (String.eqb_spec role SELF_SERVICE);
    destruct (String.eqb_spec (ScanAssets.status booking) DRAFT);
    cbn [andb negb]; split; intros H; try reflexivity;
    try (exfalso; intuition congruence).
Qed.

End Loaders.

Lemma scanAssets_loader_guard_witness :
  ScanAssets.loader "SELF_SERVICE" "DRAFT" "COMPLETE" "ARCHIVED"
    "SELF_SERVICE" draftBooking
  = inr ("Scan assets for booking | Fair stand", draftBooking)
  /\ ScanAssets.loader "SELF_SERVICE" "DRAFT" "COMPLETE" "ARCHIVED"
       "SELF_SERVICE"
       (ScanAssets.mkBooking "RESERVED" (Some sampleClock)
          (Some sampleClock) "Fair stand")
     = inl ScanAssets.notAllowed.
Proof.
  split.
  - refine (proj1 (scanAssets_loader_guard "SELF_SERVICE" "DRAFT"
                     "COMPLETE" "ARCHIVED" "SELF_SERVICE" draftBooking) _).
    repeat split; discriminate.
  - refine (proj2 (scanAssets_loader_guard "SELF_SERVICE" "DRAFT"
                     "COMPLETE" "ARCHIVED" "SELF_SERVICE"
                     (ScanAssets.mkBooking "RESERVED" (Some sampleClock)
                        (Some sampleClock) "Fair stand")) _).
    intros [_ [_ [_ [_ H]]]]. specialize (H eq_refl). discriminate H.
Defined.

(** X22.  The kit-booking loader never returns for a personal workspace.
    When it returns, the asset ids are those of the kit's assets in their
    order, and a self-service or base user gets as [selfServiceOrBaseUser]
    a member of the team whose user is the session's user; for other
    users that field is undefined. *)
Theorem kitBooking_loader_returns (sessionUserId : string)
    (personalOrg selfService : bool) (kitAssets : list KitBooking.Asset)
    (members : list KitBooking.TeamMember) :
  (personalOrg = true ->
     KitBooking.loader sessionUserId personalOrg selfService kitAssets
       members = inl KitBooking.personalWorkspace)
  /\ (forall data,
        KitBooking.loader sessionUserId personalOrg selfService kitAssets
          members = inr data ->
        personalOrg = false
        /\ KitBooking.assetIds data = map KitBooking.assetId kitAssets
        /\ KitBooking.teamMembers data = members
        /\ (selfService = true ->
            exists member,
              KitBooking.selfServiceOrBaseUser data = Some member
              /\ In member members
              /\ KitBooking.userId member = Some sessionUserId)
        /\ (selfService = false ->
            KitBooking.selfServiceOrBaseUser data = None)).
Proof.
  unfold KitBooking.loader. split; [intros ->; reflexivity|].
  intros data H. destruct personalOrg; [discriminate H|].
  split; [reflexivity|]. destruct selfService.
  - unfold KitBooking.findMember in H.
    destruct (find _ members) as [member|] eqn:E; cbn [andb negb] in H;
      [|discriminate H].
    injection H as <-. cbn. repeat split; try discriminate.
    intros _. exists member. apply find_some in E as [Hin Hu].
    repeat split; try assumption.
    destruct (KitBooking.userId member) as [u|]; [|discriminate Hu].
    apply String.eqb_eq in Hu. now subst.
  - cbn [andb] in H. injection H as <-. cbn.
    repeat split; try reflexivity. discriminate.
Qed.

Lemma kitBooking_loader_returns_witness :
  exists data,
    KitBooking.loader "u3" false true sampleAssets sampleMembers = inr data
    /\ KitBooking.assetIds data = ["a2"; "a1"]
    /\ KitBooking.selfServiceOrBaseUser data
       = Some (KitBooking.mkTeamMember "tm3" (Some "u3")).
Proof.
  pose proof (proj2 (kitBooking_loader_returns "u3" false true
                       sampleAssets sampleMembers) _ eq_refl) as H.
  eexists. split; [reflexivity|]. split; [exact (proj1 (proj2 H))|].
  reflexivity.
Defined.

(** X23.  The features of a price are empty only when the product has no
    [features] metadata; otherwise they are the pieces of the string
    between its commas, at least one, and joining them with commas gives
    the string back. *)
Theorem priceFeatures_join (features : option string) :
  (priceFeatures features = [] <-> features = None)
  /\ (forall s, features = Some s ->
        priceFeatures features <> []
        /\ join "," (priceFeatures features) = s).
Proof.
  split.
  - destruct features as [s|]; cbn; split; intros H;
      (reflexivity || discriminate H).
  - intros s ->. cbn [priceFeatures]. split; [discriminate|].
    apply join_split.
Qed.

Lemma priceFeatures_join_witness :
  priceFeatures (Some "") <> []
  /\ join "," (priceFeatures (Some "")) = "".
Proof.
  exact (proj2 (priceFeatures_join (Some "")) "" eq_refl).
Defined.
